(** * CloudContext Python client: a shallow embedding and its properties

    The development follows [clients/python/client.py].  The client is a
    thin wrapper around an [aiohttp] session: each method builds headers,
    hands one request to the session, checks the status of the response and
    unwraps its JSON body.

    - [Py] holds the fragment of the Python runtime the client relies on:
      JSON-shaped values, exceptions, truthiness and a state-and-exception
      monad for coroutine bodies (each coroutine is run to completion; the
      interleaving of several coroutines is not modelled).
    - [SaveResult] is the dataclass of the same name.
    - [aiohttp] describes what the client sees of the transport: the calls
      it makes on a session and the response object it gets back.
    - [CloudContext] is the client class, method by method. *)

From Stdlib Require Import ZArith String Ascii List Lia PrimFloat.
From stdpp Require Import base option strings gmap list.

Local Open Scope string_scope.
Local Open Scope Z_scope.

(** ** The Python fragment *)

Module Py.

(** Values as [json.loads] produces them and [json.dumps] accepts them.
    A [dict] with string keys is a finite map: equality of dicts does not
    depend on insertion order. *)
#[warnings="-register-all"]
Inductive value : Type :=
| VNone
| VBool (b : bool)
| VInt (n : Z)
| VFloat (x : PrimFloat.float)
| VStr (s : string)
| VList (items : list value)
| VDict (d : gmap string value).

(** Exceptions, by class.  [Exception] is the builtin base class
    instantiated directly, with its message; the others are the classes
    raised by the interpreter and by the transport. *)
Inductive PyExn : Type :=
| Exception (msg : string)
| TypeError
| KeyError (key : string)
| AttributeError
| JSONDecodeError            (* json.JSONDecodeError, a ValueError *)
| UnicodeDecodeError         (* a body that is not text in its charset *)
| ContentTypeError           (* aiohttp.ContentTypeError *)
| ClientPayloadError (msg : string) (* aiohttp: a body cut short *)
| ClientError (msg : string) (* aiohttp.ClientError: transport failure *)
| TimeoutError.              (* asyncio.TimeoutError *)

(** Classes a caller may name in an [except] clause to tell these errors
    apart, and which errors each clause catches: every error is an
    [Exception]; [JSONDecodeError] and [UnicodeDecodeError] are
    [ValueError]s; [ContentTypeError] and [ClientPayloadError] are
    [aiohttp.ClientError]s. *)
Inductive Handler : Type :=
| ExceptException
| ExceptValueError
| ExceptTypeError
| ExceptClientError.

Definition caught_by (e : PyExn) (h : Handler) : bool :=
  match h, e with
  | ExceptException, _ => true
  | ExceptValueError, (JSONDecodeError | UnicodeDecodeError) => true
  | ExceptTypeError, TypeError => true
  | ExceptClientError, (ContentTypeError | ClientPayloadError _ | ClientError _) => true
  | _, _ => false
  end.

Inductive Outcome (A : Type) : Type :=
| Return (a : A)
| Raise (e : PyExn).
Arguments Return {A} a.
Arguments Raise {A} e.

(** Truth value testing ([__bool__] / [__len__]). *)
Class Truthy (A : Type) := truthy : A → bool.

#[global] Instance truthy_str : Truthy string :=
  fun s => match s with EmptyString => false | String _ _ => true end.

#[global] Instance truthy_dict {V} : Truthy (gmap string V) :=
  fun d => negb (bool_decide (dom d = ∅)).

(** [None] is false; any other object answers for itself. *)
#[global] Instance truthy_optional {A} `{Truthy A} : Truthy (option A) :=
  fun o => match o with None => false | Some a => truthy a end.

(** [x or y] where [x] is an [Optional[A]] and [y] an [A]. *)
Definition or_else {A} `{Truthy A} (x : option A) (y : A) : A :=
  match x with
  | Some a => if truthy a then a else y
  | None => y
  end.

(** [s.rstrip(c)] for a one-character argument: every trailing [c] goes. *)
Fixpoint rstrip (c : ascii) (s : string) : string :=
  match s with
  | EmptyString => EmptyString
  | String a rest =>
      match rstrip c rest with
      | EmptyString => if Ascii.eqb a c then EmptyString else String a EmptyString
      | kept => String a kept
      end
  end.

(** Whether [s] ends in the character [c]. *)
Fixpoint ends_with (c : ascii) (s : string) : bool :=
  match s with
  | EmptyString => false
  | String a EmptyString => Ascii.eqb a c
  | String _ rest => ends_with c rest
  end.

(** [**v] in a call: the argument must be a mapping; its items become the
    keyword arguments. *)
Definition kwargs (v : value) : Outcome (gmap string value) :=
  match v with
  | VDict d => Return d
  | _ => Raise TypeError
  end.

(** [d[key]] on a JSON value: only a dict can be indexed by a string. *)
Definition getitem (v : value) (key : string) : Outcome value :=
  match v with
  | VDict d =>
      match d !! key with
      | Some x => Return x
      | None => Raise (KeyError key)
      end
  | _ => Raise TypeError
  end.

(** Coroutine bodies: a state [S] threaded through, and an outcome that is
    a value or a raised exception. *)
Definition M (S A : Type) : Type := S → Outcome A * S.

Definition ret {S A} (a : A) : M S A := fun w => (Return a, w).

Definition raise {S A} (e : PyExn) : M S A := fun w => (Raise e, w).

Definition bind {S A B} (m : M S A) (k : A → M S B) : M S B :=
  fun w =>
    match m w with
    | (Return a, w') => k a w'
    | (Raise e, w') => (Raise e, w')
    end.

Definition gets {S A} (f : S → A) : M S A := fun w => (Return (f w), w).

Definition lift {S A} (o : Outcome A) : M S A := fun w => (o, w).

Definition exc_of {A} (o : Outcome A) : option PyExn :=
  match o with
  | Return _ => None
  | Raise e => Some e
  end.

(** [async with mgr as r: body], for a manager whose [__aexit__] returns
    [None]: the exit handler runs on every way out of the body, is told
    the exception in flight, and does not swallow it.  An exception
    raised by the exit handler itself replaces the body's outcome. *)
Definition async_with {S R A}
    (aenter : M S R) (aexit : option PyExn → M S unit) (body : R → M S A) : M S A :=
  fun w =>
    match aenter w with
    | (Raise e, w1) => (Raise e, w1)
    | (Return r, w1) =>
        let '(out, w2) := body r w1 in
        match aexit (exc_of out) w2 with
        | (Raise e', w3) => (Raise e', w3)
        | (Return _, w3) => (out, w3)
        end
    end.

End Py.

Declare Scope py_scope.
Delimit Scope py_scope with py.
Notation "x <- m ;; k" := (Py.bind m (fun x => k))
  (at level 100, m at next level, right associativity) : py_scope.
Local Open Scope py_scope.

(** ** The dataclass [SaveResult] *)

Module SaveResult.
Import Py.

(** Field annotations are not enforced by a dataclass: each field holds
    whatever value it was given. *)
Record t : Type := mk {
  success : value;
  context_id : value;
  version : value;
  timestamp : value
}.

Definition fields : gset string :=
  {[ "success"; "context_id"; "version"; "timestamp" ]}.

(** The generated [__init__], called with keyword arguments only: a keyword
    that names no field is refused, and so is a field left without value. *)
Definition __init__ (kw : gmap string value) : Outcome t :=
  if bool_decide (dom kw ⊆ fields) then
    match kw !! "success", kw !! "context_id", kw !! "version", kw !! "timestamp" with
    | Some a, Some b, Some c, Some d => Return (mk a b c d)
    | _, _, _, _ => Raise TypeError
    end
  else Raise TypeError.

End SaveResult.

(** ** The transport, as the client sees it *)

Module aiohttp.
Import Py.

Inductive Method : Type := POST | GET | DELETE.

(** The arguments of one call [session.<method>(url, headers=..., json=...)]. *)
Record Request : Type := {
  method : Method;
  url : string;
  headers : gmap string string;
  json : option value
}.

(** Why the body of a response cannot be read: its bytes are not text in
    the charset of the response ([UnicodeDecodeError]), or the payload did
    not arrive whole ([ClientPayloadError]). *)
Inductive ReadError : Type :=
| BadEncoding
| PayloadError (msg : string).

Definition read_exn (f : ReadError) : PyExn :=
  match f with
  | BadEncoding => UnicodeDecodeError
  | PayloadError msg => ClientPayloadError msg
  end.

(** What [await resp.text()] gives: the body as text, or the error of
    reading it. *)
Inductive Text : Type :=
| Readable (s : string)
| Unreadable (f : ReadError).

(** What [await resp.json()] gives: the decoded body ([None] for an empty
    body), or an error: [JSONDecodeError] for a body that is not JSON,
    [ContentTypeError] for a body not announced as JSON, or the error of
    reading the body. *)
Inductive Body : Type :=
| Decoded (v : value)
| Malformed
| WrongContentType
| Unread (f : ReadError).

(** A response holds what each of the two ways of reading its body gives;
    a method reads it one way only. *)
Record ClientResponse : Type := {
  status : Z;
  text : Text;
  body : Body
}.

(** A session is known by its identity. *)
Record ClientSession : Type := { sid : nat }.

(** A session object is always true. *)
#[global] Instance truthy_session : Truthy ClientSession := fun _ => true.

(** What happens to sessions, in order of occurrence. *)
Inductive Event : Type :=
| Created (s : ClientSession)
| Called (s : ClientSession) (r : Request)
| Closed (s : ClientSession).

(** The far end: given what happened so far, the answer to a call is a
    response or an exception of the transport. *)
Definition Transport : Type :=
  list Event → ClientSession → Request → Outcome ClientResponse.

Definition text_outcome (t : Text) : Outcome string :=
  match t with
  | Readable s => Return s
  | Unreadable f => Raise (read_exn f)
  end.

Definition json_outcome (b : Body) : Outcome value :=
  match b with
  | Decoded v => Return v
  | Malformed => Raise JSONDecodeError
  | WrongContentType => Raise ContentTypeError
  | Unread f => Raise (read_exn f)
  end.

Definition resp_text {S} (r : ClientResponse) : M S string :=
  lift (text_outcome (text r)).

Definition resp_json {S} (r : ClientResponse) : M S value :=
  lift (json_outcome (body r)).

(** The requests among some events. *)
Fixpoint calls (t : list Event) : list Request :=
  match t with
  | [] => []
  | Called _ r :: t' => r :: calls t'
  | _ :: t' => calls t'
  end.

(** Whether session [s] has been closed. *)
Fixpoint closed (s : ClientSession) (t : list Event) : bool :=
  match t with
  | [] => false
  | Closed s' :: t' => Nat.eqb (sid s) (sid s') || closed s t'
  | _ :: t' => closed s t'
  end.

Fixpoint created (s : ClientSession) (t : list Event) : bool :=
  match t with
  | [] => false
  | Created s' :: t' => Nat.eqb (sid s) (sid s') || created s t'
  | _ :: t' => created s t'
  end.

End aiohttp.

(** ** The client class [CloudContext] *)

Module CloudContext.
Import Py aiohttp.

(** The attributes of an instance. *)
Record t : Type := {
  base_url : string;
  api_key : string;
  context_id : string;
  session : option ClientSession
}.

(** The state a method runs in: the instance it is called on, the events
    on sessions so far, the identity of the next session to be created,
    and the far end. *)
Record World : Type := {
  self : t;
  trace : list Event;
  fresh : nat;
  transport : Transport
}.

(** One more event on the trace. *)
Definition emit (e : Event) (w : World) : World :=
  {| self := self w; trace := trace w ++ [e];
     fresh := fresh w; transport := transport w |}.

Definition log (e : Event) : M World unit := fun w => (Return tt, emit e w).

(** [aiohttp.ClientSession()] *)
Definition new_session : M World ClientSession :=
  fun w =>
    let s := {| sid := fresh w |} in
    (Return s,
     {| self := self w; trace := trace w ++ [Created s];
        fresh := S (fresh w); transport := transport w |}).

(** [self.session = v] *)
Definition set_session (v : option ClientSession) : M World unit :=
  fun w =>
    (Return tt,
     {| self := {| base_url := base_url (self w); api_key := api_key (self w);
                   context_id := context_id (self w); session := v |};
        trace := trace w; fresh := fresh w; transport := transport w |}).

(** [self.session.<method>(url, headers=headers, json=json)]: the attribute
    lookup fails on [None]; otherwise the call is handed to the session and
    the far end answers. *)
Definition session_call (m : Method) (u : string)
    (h : gmap string string) (j : option value) : M World ClientResponse :=
  o <- gets (fun w => session (self w)) ;;
  match o with
  | None => raise AttributeError
  | Some s =>
      let r := {| method := m; url := u; headers := h; json := j |} in
      answer <- gets (fun w => transport w (trace w) s r) ;;
      _ <- log (Called s r) ;;
      lift answer
  end.

(** [self.session.close()] *)
Definition session_close : M World unit :=
  o <- gets (fun w => session (self w)) ;;
  match o with
  | None => raise AttributeError
  | Some s => log (Closed s)
  end.

(** Leaving the [async with] block of a request releases the response and
    lets any exception through. *)
Definition release (exc : option PyExn) : M World unit := ret tt.

(** [__init__(self, base_url, api_key, context_id="default")]; an omitted
    [context_id] is [None] here. *)
Definition __init__ (base_url api_key : string) (context_id : option string) : t :=
  {| base_url := rstrip "/" base_url;
     api_key := api_key;
     context_id := default "default" context_id;
     session := None |}.

Definition __aenter__ : M World unit :=
  s <- new_session ;;
  set_session (Some s).

Definition __aexit__ (exc : option PyExn) : M World unit :=
  o <- gets (fun w => session (self w)) ;;
  if truthy o then session_close else ret tt.

Definition save (content : gmap string value)
    (metadata : option (gmap string value))
    (context_id : option string) : M World SaveResult.t :=
  me <- gets self ;;
  let ctx_id := or_else context_id (CloudContext.context_id me) in
  let headers : gmap string string :=
    {[ "Authorization" := "Bearer " +:+ api_key me; "X-Context-ID" := ctx_id ]} in
  let payload :=
    VDict {[ "content" := VDict content;
             "metadata" := VDict (or_else metadata ∅) ]} in
  async_with
    (session_call POST (base_url me +:+ "/api/context") headers (Some payload))
    release
    (fun resp =>
       if negb (status resp =? 200) then
         msg <- resp_text resp ;;
         raise (Exception ("Failed to save context: " +:+ msg))
       else
         data <- resp_json resp ;;
         kw <- lift (kwargs data) ;;
         lift (SaveResult.__init__ kw)).

Definition get (context_id : option string) : M World value :=
  me <- gets self ;;
  let ctx_id := or_else context_id (CloudContext.context_id me) in
  let headers : gmap string string :=
    {[ "Authorization" := "Bearer " +:+ api_key me; "X-Context-ID" := ctx_id ]} in
  async_with
    (session_call GET (base_url me +:+ "/api/context") headers None)
    release
    (fun resp =>
       if negb (status resp =? 200) then
         msg <- resp_text resp ;;
         raise (Exception ("Failed to get context: " +:+ msg))
       else
         resp_json resp).

Definition delete (context_id : option string) : M World bool :=
  me <- gets self ;;
  let ctx_id := or_else context_id (CloudContext.context_id me) in
  let headers : gmap string string :=
    {[ "Authorization" := "Bearer " +:+ api_key me; "X-Context-ID" := ctx_id ]} in
  async_with
    (session_call DELETE (base_url me +:+ "/api/context") headers None)
    release
    (fun resp =>
       if negb (status resp =? 200) then
         msg <- resp_text resp ;;
         raise (Exception ("Failed to delete context: " +:+ msg))
       else
         ret true).

Definition list : M World value :=
  me <- gets self ;;
  let headers : gmap string string :=
    {[ "Authorization" := "Bearer " +:+ api_key me ]} in
  async_with
    (session_call GET (base_url me +:+ "/api/context/list") headers None)
    release
    (fun resp =>
       if negb (status resp =? 200) then
         msg <- resp_text resp ;;
         raise (Exception ("Failed to list contexts: " +:+ msg))
       else
         data <- resp_json resp ;;
         lift (getitem data "contexts")).

End CloudContext.

(** ** Scopes and observations *)

Module Scope.
Import Py aiohttp CloudContext.

(** [async with client: body] *)
Definition scoped {A} (body : M World A) : M World A :=
  async_with __aenter__ __aexit__ (fun _ => body).

(** Calls on the client from inside a scope, results dropped. *)
Inductive Op : Type :=
| Save (content : gmap string value) (metadata : option (gmap string value))
       (context_id : option string)
| Get (context_id : option string)
| Delete (context_id : option string)
| List.

Definition run_op (o : Op) : M World unit :=
  match o with
  | Save c m i => _ <- save c m i ;; ret tt
  | Get i => _ <- get i ;; ret tt
  | Delete i => _ <- delete i ;; ret tt
  | List => _ <- CloudContext.list ;; ret tt
  end.

Fixpoint run_ops (os : Datatypes.list Op) : M World unit :=
  match os with
  | [] => ret tt
  | o :: os' => _ <- run_op o ;; run_ops os'
  end.

(** The requests handed to a session while [m] runs from [w]. *)
Definition sent_by {A} (m : M World A) (w : World) : Datatypes.list Request :=
  calls (drop (length (trace w)) (trace (snd (m w)))).

(** [m], run from [w], reaches the far end through the client's session
    with request [r] and is answered with the response [resp]. *)
Definition answered {A} (m : M World A) (w : World) (resp : ClientResponse) : Prop :=
  ∃ s r, session (self w) = Some s
         ∧ sent_by m w = [r]
         ∧ transport w (trace w) s r = Return resp.

(** The two kinds of failure of a call that reached the server: the error
    the client raises itself on a status other than 200, and the errors of
    decoding the body of a 200 response. *)
Definition RequestFailed (e : PyExn) : Prop := ∃ msg, e = Exception msg.

Definition DecodeError (e : PyExn) : Prop :=
  e = JSONDecodeError ∨ e = ContentTypeError ∨ e = UnicodeDecodeError
  ∨ e = TypeError.

(** The headers every method but [list] builds. *)
Definition scoped_headers (me : t) (i : option string) : gmap string string :=
  {[ "Authorization" := "Bearer " +:+ api_key me;
     "X-Context-ID" := or_else i (context_id me) ]}.

Definition save_request (me : t) (c : gmap string value)
    (m : option (gmap string value)) (i : option string) : Request :=
  {| method := POST;
     url := base_url me +:+ "/api/context";
     headers := scoped_headers me i;
     json := Some (VDict {[ "content" := VDict c;
                            "metadata" := VDict (or_else m ∅) ]}) |}.

Definition get_request (me : t) (i : option string) : Request :=
  {| method := GET;
     url := base_url me +:+ "/api/context";
     headers := scoped_headers me i;
     json := None |}.

Definition delete_request (me : t) (i : option string) : Request :=
  {| method := DELETE;
     url := base_url me +:+ "/api/context";
     headers := scoped_headers me i;
     json := None |}.

Definition list_request (me : t) : Request :=
  {| method := GET;
     url := base_url me +:+ "/api/context/list";
     headers := {[ "Authorization" := "Bearer " +:+ api_key me ]};
     json := None |}.

(** The world after a method: one more call on the trace when there is a
    session, nothing otherwise. *)
Definition after_call (w : World) (r : Request) : World :=
  match session (self w) with
  | Some s => emit (Called s r) w
  | None => w
  end.


(** The identifier a call is made for: the argument when there is one and
    it is not the empty string, the client's own otherwise. *)
Definition effective_id (me : t) (i : option string) : string :=
  match i with
  | Some (String a rest) => String a rest
  | _ => context_id me
  end.

(** A far end that gives the same response to every call, and a client that
    has entered its scope in front of it. *)
Definition always (resp : ClientResponse) : Transport :=
  fun _ _ _ => Return resp.

Definition boot (far : Transport) : World :=
  {| self := __init__ "https://x.test/" "k" None;
     trace := [];
     fresh := 0;
     transport := far |}.

Definition entered (resp : ClientResponse) : World :=
  snd (__aenter__ (boot (always resp))).

Definition forbidden : ClientResponse :=
  {| status := 403; text := Readable "Forbidden"; body := Malformed |}.

Definition ok (v : value) : ClientResponse :=
  {| status := 200; text := Readable ""; body := Decoded v |}.

(** The error raised on a status other than 200: the client's own, with
    the text of the body in its message, when the text can be read, and
    the error of reading it otherwise. *)
Definition status_error {A} (resp : ClientResponse) (prefix : string) : Outcome A :=
  match text_outcome (text resp) with
  | Return msg => Raise (Exception (prefix +:+ msg))
  | Raise e => Raise e
  end.

(** A response whose bytes are not text. *)
Definition garbled (code : Z) : ClientResponse :=
  {| status := code; text := Unreadable BadEncoding; body := Unread BadEncoding |}.

Definition saved_body : gmap string value :=
  {[ "success" := VBool true; "context_id" := VStr "c";
     "version" := VInt 1; "timestamp" := VStr "T" ]}.

(** The same body with one field more. *)
Definition extra_body : gmap string value := <[ "extra" := VNone ]> saved_body.

(** The events added to the trace while [m] runs from [w]. *)
Definition emitted {A} (m : M World A) (w : World) : Datatypes.list Event :=
  drop (length (trace w)) (trace (snd (m w))).

(** [m], run from [w], reaches the far end through the client's session
    and the transport fails there with the exception [e]. *)
Definition refused {A} (m : M World A) (w : World) (e : PyExn) : Prop :=
  ∃ s r, session (self w) = Some s
         ∧ sent_by m w = [r]
         ∧ transport w (trace w) s r = Raise e.

(** The keyword arguments that spell out a [SaveResult] field by field. *)
Definition as_kwargs (r : SaveResult.t) : gmap string value :=
  {[ "success" := SaveResult.success r;
     "context_id" := SaveResult.context_id r;
     "version" := SaveResult.version r;
     "timestamp" := SaveResult.timestamp r ]}.

(** A run of [n] slashes. *)
Definition slashes (n : nat) : string :=
  string_of_list_ascii (replicate n "/"%char).

(** A far end that is never reached, and a client that has entered its
    scope in front of it. *)
Definition failing (e : PyExn) : Transport := fun _ _ _ => Raise e.

Definition cut_off (e : PyExn) : World := snd (__aenter__ (boot (failing e))).

Definition no_content : ClientResponse :=
  {| status := 204; text := Readable ""; body := Decoded VNone |}.

(** The request behind a call on the client [me]. *)
Definition op_request (me : t) (o : Op) : Request :=
  match o with
  | Save c m i => save_request me c m i
  | Get i => get_request me i
  | Delete i => delete_request me i
  | List => list_request me
  end.

End Scope.

(** * Properties *)

Import Py aiohttp CloudContext Scope.

(** ** How a method runs *)

Section Runs.

Lemma bind_gets {A B} (f : World → A) (k : A → M World B) (w : World) :
  bind (gets f) k w = k (f w) w.
Proof. reflexivity. Qed.

Lemma self_emit e w : self (emit e w) = self w.
Proof. reflexivity. Qed.

Lemma trace_emit e w : trace (emit e w) = (trace w ++ [e])%list.
Proof. reflexivity. Qed.

(** Without a session the attribute lookup fails before anything is sent. *)
Lemma session_call_none m u h j w :
  session (self w) = None →
  session_call m u h j w = (Raise AttributeError, w).
Proof.
  intros Hs. unfold session_call. rewrite bind_gets, Hs. reflexivity.
Qed.

(** With a session the call is recorded and the far end decides. *)
Lemma session_call_some m u h j w s :
  session (self w) = Some s →
  let r := {| method := m; url := u; headers := h; json := j |} in
  session_call m u h j w = (transport w (trace w) s r, emit (Called s r) w).
Proof.
  intros Hs r. unfold session_call. rewrite bind_gets, Hs.
  rewrite bind_gets. reflexivity.
Qed.

Context {A : Type} (m : Method) (u : string) (h : gmap string string)
        (j : option value) (k : ClientResponse → M World A).

(** The handlers of the four methods only inspect the response. *)
Hypothesis k_reads : ∀ resp w, snd (k resp w) = w.

Lemma request_block_none w :
  session (self w) = None →
  async_with (session_call m u h j) release k w = (Raise AttributeError, w).
Proof.
  intros Hs. unfold async_with. rewrite session_call_none by exact Hs.
  reflexivity.
Qed.

Lemma request_block_some w s :
  session (self w) = Some s →
  let r := {| method := m; url := u; headers := h; json := j |} in
  let w' := emit (Called s r) w in
  async_with (session_call m u h j) release k w =
    (match transport w (trace w) s r with
     | Return resp => fst (k resp w')
     | Raise e => Raise e
     end, w').
Proof.
  intros Hs r w'. unfold async_with.
  rewrite (session_call_some m u h j w s Hs). fold r. fold w'.
  destruct (transport w (trace w) s r) as [resp|e]; [|reflexivity].
  specialize (k_reads resp w').
  destruct (k resp w') as [out w2]. simpl in *. subst w2. reflexivity.
Qed.

End Runs.

(** ** What is sent *)

Lemma save_reads (resp : ClientResponse) (w : World) :
  snd ((if negb (status resp =? 200)
        then msg <- resp_text resp ;;
             raise (Exception ("Failed to save context: " +:+ msg))
        else data <- resp_json resp ;;
             kw <- lift (kwargs data) ;;
             lift (SaveResult.__init__ kw)) w) = w.
Proof.
  unfold resp_text, resp_json, bind, lift, raise.
  destruct (negb _).
  - destruct (text_outcome (text resp)); reflexivity.
  - destruct (json_outcome (body resp)) as [v|e]; [|reflexivity].
    destruct (kwargs v); reflexivity.
Qed.

Lemma get_reads (resp : ClientResponse) (w : World) :
  snd ((if negb (status resp =? 200)
        then msg <- resp_text resp ;;
             raise (Exception ("Failed to get context: " +:+ msg))
        else resp_json resp) w) = w.
Proof.
  unfold resp_text, resp_json, bind, lift, raise.
  destruct (negb _).
  - destruct (text_outcome (text resp)); reflexivity.
  - destruct (json_outcome (body resp)); reflexivity.
Qed.

Lemma delete_reads (resp : ClientResponse) (w : World) :
  snd ((if negb (status resp =? 200)
        then msg <- resp_text resp ;;
             raise (Exception ("Failed to delete context: " +:+ msg))
        else ret true) w) = w.
Proof.
  unfold resp_text, bind, lift, raise, ret.
  destruct (negb _); [|reflexivity].
  destruct (text_outcome (text resp)); reflexivity.
Qed.

Lemma list_reads (resp : ClientResponse) (w : World) :
  snd ((if negb (status resp =? 200)
        then msg <- resp_text resp ;;
             raise (Exception ("Failed to list contexts: " +:+ msg))
        else data <- resp_json resp ;;
             lift (getitem data "contexts")) w) = w.
Proof.
  unfold resp_text, resp_json, bind, lift, raise.
  destruct (negb _).
  - destruct (text_outcome (text resp)); reflexivity.
  - destruct (json_outcome (body resp)); reflexivity.
Qed.

Lemma save_world c m i w :
  snd (save c m i w) = after_call w (save_request (self w) c m i).
Proof.
  unfold save, after_call. rewrite bind_gets. cbv zeta.
  destruct (session (self w)) as [s|] eqn:Hs.
  - rewrite (request_block_some _ _ _ _ _ save_reads w s Hs). reflexivity.
  - rewrite (request_block_none _ _ _ _ _ w Hs). reflexivity.
Qed.

Lemma get_world i w :
  snd (get i w) = after_call w (get_request (self w) i).
Proof.
  unfold get, after_call. rewrite bind_gets. cbv zeta.
  destruct (session (self w)) as [s|] eqn:Hs.
  - rewrite (request_block_some _ _ _ _ _ get_reads w s Hs). reflexivity.
  - rewrite (request_block_none _ _ _ _ _ w Hs). reflexivity.
Qed.

Lemma delete_world i w :
  snd (delete i w) = after_call w (delete_request (self w) i).
Proof.
  unfold delete, after_call. rewrite bind_gets. cbv zeta.
  destruct (session (self w)) as [s|] eqn:Hs.
  - rewrite (request_block_some _ _ _ _ _ delete_reads w s Hs). reflexivity.
  - rewrite (request_block_none _ _ _ _ _ w Hs). reflexivity.
Qed.

Lemma list_world w :
  snd (CloudContext.list w) = after_call w (list_request (self w)).
Proof.
  unfold CloudContext.list, after_call. rewrite bind_gets. cbv zeta.
  destruct (session (self w)) as [s|] eqn:Hs.
  - rewrite (request_block_some _ _ _ _ _ list_reads w s Hs). reflexivity.
  - rewrite (request_block_none _ _ _ _ _ w Hs). reflexivity.
Qed.

Lemma sent_by_after {A} (op : M World A) (w : World) (r : Request) :
  snd (op w) = after_call w r →
  sent_by op w = match session (self w) with Some _ => [r] | None => [] end.
Proof.
  intros Hw. unfold sent_by. rewrite Hw. unfold after_call.
  destruct (session (self w)) as [s|].
  - rewrite trace_emit, drop_app_length. reflexivity.
  - rewrite drop_all. reflexivity.
Qed.

(** [answered], in terms of the request the method is known to send. *)
Lemma answered_after {A} (op : M World A) (w : World) (r : Request)
    (resp : ClientResponse) :
  snd (op w) = after_call w r →
  answered op w resp ↔
  ∃ s, session (self w) = Some s ∧ transport w (trace w) s r = Return resp.
Proof.
  intros Hw. unfold answered. rewrite (sent_by_after op w r Hw). split.
  - intros (s & r' & Hs & Hr & Ht). rewrite Hs in Hr.
    injection Hr as <-. eauto.
  - intros (s & Hs & Ht). exists s, r. rewrite Hs. auto.
Qed.

(** ** What comes back *)

Section Outcomes.

Variables (w : World) (s : ClientSession) (resp : ClientResponse).
Hypothesis Hs : session (self w) = Some s.

Lemma save_outcome c m i :
  transport w (trace w) s (save_request (self w) c m i) = Return resp →
  fst (save c m i w) =
    if negb (status resp =? 200)
    then status_error resp "Failed to save context: "
    else match json_outcome (body resp) with
         | Return v =>
             match kwargs v with
             | Return kw => SaveResult.__init__ kw
             | Raise e => Raise e
             end
         | Raise e => Raise e
         end.
Proof.
  intros Ht. unfold save. rewrite bind_gets. cbv zeta.
  rewrite (request_block_some _ _ _ _ _ save_reads w s Hs).
  unfold save_request, scoped_headers in Ht. rewrite Ht.
  unfold status_error, resp_text, resp_json, bind, lift, raise.
  destruct (negb _).
  - destruct (text_outcome (text resp)); reflexivity.
  - destruct (json_outcome (body resp)) as [v|e]; [|reflexivity].
    destruct (kwargs v); reflexivity.
Qed.

Lemma get_outcome i :
  transport w (trace w) s (get_request (self w) i) = Return resp →
  fst (get i w) =
    if negb (status resp =? 200)
    then status_error resp "Failed to get context: "
    else json_outcome (body resp).
Proof.
  intros Ht. unfold get. rewrite bind_gets. cbv zeta.
  rewrite (request_block_some _ _ _ _ _ get_reads w s Hs).
  unfold get_request, scoped_headers in Ht. rewrite Ht.
  unfold status_error, resp_text, resp_json, bind, lift, raise.
  destruct (negb _).
  - destruct (text_outcome (text resp)); reflexivity.
  - destruct (json_outcome (body resp)); reflexivity.
Qed.

Lemma delete_outcome i :
  transport w (trace w) s (delete_request (self w) i) = Return resp →
  fst (delete i w) =
    if negb (status resp =? 200)
    then status_error resp "Failed to delete context: "
    else Return true.
Proof.
  intros Ht. unfold delete. rewrite bind_gets. cbv zeta.
  rewrite (request_block_some _ _ _ _ _ delete_reads w s Hs).
  unfold delete_request, scoped_headers in Ht. rewrite Ht.
  unfold status_error, resp_text, bind, lift, raise, ret.
  destruct (negb _); [|reflexivity].
  destruct (text_outcome (text resp)); reflexivity.
Qed.

Lemma list_outcome :
  transport w (trace w) s (list_request (self w)) = Return resp →
  fst (CloudContext.list w) =
    if negb (status resp =? 200)
    then status_error resp "Failed to list contexts: "
    else match json_outcome (body resp) with
         | Return v => getitem v "contexts"
         | Raise e => Raise e
         end.
Proof.
  intros Ht. unfold CloudContext.list. rewrite bind_gets. cbv zeta.
  rewrite (request_block_some _ _ _ _ _ list_reads w s Hs).
  unfold list_request in Ht. rewrite Ht.
  unfold status_error, resp_text, resp_json, bind, lift, raise.
  destruct (negb _).
  - destruct (text_outcome (text resp)); reflexivity.
  - destruct (json_outcome (body resp)); reflexivity.
Qed.

End Outcomes.

(** ** Truthiness and defaults *)

Lemma or_else_id (i : option string) (me : t) :
  or_else i (context_id me) = effective_id me i.
Proof. destruct i as [[|a rest]|]; reflexivity. Qed.

(** An empty mapping given explicitly and an omitted one are sent alike,
    so [metadata or {}] is the mapping given, if any. *)
Lemma or_else_mapping (m : option (gmap string value)) :
  or_else m ∅ = default ∅ m.
Proof.
  destruct m as [d|]; [|reflexivity].
  unfold or_else, truthy, truthy_dict. simpl.
  case_bool_decide as Hd; simpl; [|reflexivity].
  symmetry. apply dom_empty_inv_L. exact Hd.
Qed.

Lemma scoped_headers_id (me : t) (i : option string) :
  scoped_headers me i !! "X-Context-ID" = Some (effective_id me i).
Proof.
  unfold scoped_headers. rewrite or_else_id.
  rewrite lookup_insert_ne by discriminate.
  apply lookup_singleton_eq.
Qed.

Lemma list_headers_no_id (me : t) :
  headers (list_request me) !! "X-Context-ID" = None.
Proof. apply lookup_singleton_ne. discriminate. Qed.

(** ** [rstrip] *)

Lemma rstrip_clean c s : ends_with c (rstrip c s) = false.
Proof.
  induction s as [|a rest IH]; [reflexivity|]. simpl.
  destruct (rstrip c rest) as [|b kept] eqn:E.
  - destruct (Ascii.eqb a c) eqn:Hac; [reflexivity|]. simpl. exact Hac.
  - exact IH.
Qed.

Lemma rstrip_keeps c s : ends_with c s = false → rstrip c s = s.
Proof.
  induction s as [|a rest IH]; [reflexivity|]. simpl.
  destruct rest as [|b rest'].
  - intros ->. reflexivity.
  - intros H. rewrite (IH H). reflexivity.
Qed.

Lemma rstrip_idempotent c s : rstrip c (rstrip c s) = rstrip c s.
Proof. apply rstrip_keeps, rstrip_clean. Qed.

Lemma append_cons a s t : String a s +:+ t = String a (s +:+ t).
Proof. reflexivity. Qed.

Lemma append_nil t : "" +:+ t = t.
Proof. reflexivity. Qed.

(** Only copies of [c] are removed, and only at the end. *)
Lemma rstrip_suffix c s :
  ∃ n, s = rstrip c s +:+ string_of_list_ascii (replicate n c).
Proof.
  induction s as [|a rest [n IH]]; [exists 0%nat; reflexivity|]. simpl.
  destruct (rstrip c rest) as [|b kept] eqn:E.
  - rewrite append_nil in IH. destruct (Ascii.eqb_spec a c) as [->|Hne].
    + exists (S n). rewrite append_nil. simpl. f_equal. exact IH.
    + exists n. rewrite append_cons, append_nil. f_equal. exact IH.
  - exists n. rewrite append_cons. f_equal. exact IH.
Qed.

(** ** The dataclass constructor *)

Lemma SaveResult_init_exact (kw : gmap string value) (a b c d : value) :
  dom kw = SaveResult.fields →
  kw !! "success" = Some a → kw !! "context_id" = Some b →
  kw !! "version" = Some c → kw !! "timestamp" = Some d →
  SaveResult.__init__ kw = Return (SaveResult.mk a b c d).
Proof.
  intros Hdom Ha Hb Hc Hd. unfold SaveResult.__init__.
  rewrite bool_decide_true by (rewrite Hdom; reflexivity).
  rewrite Ha, Hb, Hc, Hd. reflexivity.
Qed.

Lemma SaveResult_init_missing (kw : gmap string value) (f : string) :
  f ∈ SaveResult.fields → kw !! f = None →
  SaveResult.__init__ kw = Raise TypeError.
Proof.
  intros Hf Hnone. unfold SaveResult.__init__.
  destruct (bool_decide _); [|reflexivity].
  unfold SaveResult.fields in Hf.
  rewrite !elem_of_union, !elem_of_singleton in Hf.
  destruct Hf as [[[-> | ->] | ->] | ->]; rewrite Hnone;
    repeat (match goal with |- context [match ?o with _ => _ end] =>
              destruct o end); reflexivity.
Qed.

Lemma SaveResult_init_unexpected (kw : gmap string value) (f : string) :
  f ∉ SaveResult.fields → is_Some (kw !! f) →
  SaveResult.__init__ kw = Raise TypeError.
Proof.
  intros Hf Hsome. unfold SaveResult.__init__.
  rewrite bool_decide_false; [reflexivity|].
  intros Hsub. apply Hf, Hsub, elem_of_dom, Hsome.
Qed.

(** The constructor succeeds on exactly the mappings whose keys are the
    four field names. *)
Lemma SaveResult_init_returns (kw : gmap string value) :
  (∃ r, SaveResult.__init__ kw = Return r) ↔ dom kw = SaveResult.fields.
Proof.
  split.
  - intros [r Hr]. unfold SaveResult.__init__ in Hr.
    case_bool_decide as Hsub; [|discriminate].
    destruct (kw !! "success") eqn:Ha; [|discriminate].
    destruct (kw !! "context_id") eqn:Hb; [|discriminate].
    destruct (kw !! "version") eqn:Hc; [|discriminate].
    destruct (kw !! "timestamp") eqn:Hd; [|discriminate].
    apply set_eq. intros f. split; [apply Hsub|].
    unfold SaveResult.fields.
    rewrite !elem_of_union, !elem_of_singleton, elem_of_dom.
    intros [[[-> | ->] | ->] | ->]; eauto.
  - intros Hdom.
    assert (∀ f, f ∈ SaveResult.fields → is_Some (kw !! f)) as Hall.
    { intros f Hf. apply elem_of_dom. rewrite Hdom. exact Hf. }
    destruct (Hall "success") as [a Ha]; [set_solver|].
    destruct (Hall "context_id") as [b Hb]; [set_solver|].
    destruct (Hall "version") as [c Hc]; [set_solver|].
    destruct (Hall "timestamp") as [d Hd]; [set_solver|].
    exists (SaveResult.mk a b c d). by apply SaveResult_init_exact.
Qed.

(** ** Failure on a bad status *)

Lemma bad_status (resp : ClientResponse) :
  400 ≤ status resp → negb (status resp =? 200) = true.
Proof. intros H. apply negb_true_iff, Z.eqb_neq. lia. Qed.

Lemma status_error_readable {A} (resp : ClientResponse) (prefix msg : string) :
  text resp = Readable msg →
  status_error (A:=A) resp prefix = Raise (Exception (prefix +:+ msg)).
Proof. intros H. unfold status_error. rewrite H. reflexivity. Qed.

Lemma status_error_unreadable {A} (resp : ClientResponse) (prefix : string)
    (f : ReadError) :
  text resp = Unreadable f →
  status_error (A:=A) resp prefix = Raise (read_exn f).
Proof. intros H. unfold status_error. rewrite H. reflexivity. Qed.

(** Any response is an answer to whatever is sent to [always resp]. *)
Lemma entered_answered {A} (op : M World A) (r : Request) (resp : ClientResponse) :
  snd (op (entered resp)) = after_call (entered resp) r →
  answered op (entered resp) resp.
Proof.
  intros Hw. apply (answered_after op _ r resp Hw).
  exists {| sid := 0 |}. split; reflexivity.
Qed.

(** A response with status 500 whose body is not text: reading the text
    fails before the client's error is built, and each method raises
    [UnicodeDecodeError], which is not the client's error. *)
Lemma C1_unreadable_body :
  400 ≤ status (garbled 500)
  ∧ answered (save ∅ None None) (entered (garbled 500)) (garbled 500)
  ∧ fst (save ∅ None None (entered (garbled 500))) = Raise UnicodeDecodeError
  ∧ answered (get None) (entered (garbled 500)) (garbled 500)
  ∧ fst (get None (entered (garbled 500))) = Raise UnicodeDecodeError
  ∧ (∀ msg, fst (get None (entered (garbled 500))) ≠ Raise (Exception msg))
  ∧ ¬ RequestFailed UnicodeDecodeError.
Proof.
  split; [simpl; lia|].
  split; [eapply entered_answered, save_world|].
  split; [reflexivity|].
  split; [eapply entered_answered, get_world|].
  split; [reflexivity|].
  split; [intros msg; discriminate|].
  intros [msg Hmsg]. discriminate.
Qed.

(** C1, amended.  When the response to save, get, delete or list has a
    status of 400 or above and the body of the response can be read as
    text, the method raises the client's own error, and the message is
    ["Failed to save context: "], ["Failed to get context: "],
    ["Failed to delete context: "] or ["Failed to list contexts: "]
    followed by that text, and nothing else.  When the body cannot be read
    as text, the method raises the error of reading it instead. *)
Theorem C1_status_error_message (w : World) (resp : ClientResponse) :
  400 ≤ status resp →
  (∀ msg, text resp = Readable msg →
     (∀ c m i, answered (save c m i) w resp →
        fst (save c m i w) =
          Raise (Exception ("Failed to save context: " +:+ msg)))
     ∧ (∀ i, answered (get i) w resp →
        fst (get i w) =
          Raise (Exception ("Failed to get context: " +:+ msg)))
     ∧ (∀ i, answered (delete i) w resp →
        fst (delete i w) =
          Raise (Exception ("Failed to delete context: " +:+ msg)))
     ∧ (answered CloudContext.list w resp →
        fst (CloudContext.list w) =
          Raise (Exception ("Failed to list contexts: " +:+ msg))))
  ∧ (∀ f, text resp = Unreadable f →
     (∀ c m i, answered (save c m i) w resp →
        fst (save c m i w) = Raise (read_exn f))
     ∧ (∀ i, answered (get i) w resp → fst (get i w) = Raise (read_exn f))
     ∧ (∀ i, answered (delete i) w resp → fst (delete i w) = Raise (read_exn f))
     ∧ (answered CloudContext.list w resp →
        fst (CloudContext.list w) = Raise (read_exn f))).
Proof.
  intros Hbad%bad_status. split.
  - intros msg Hmsg. repeat apply conj.
    + intros c m i (s & Hs & Ht)%(answered_after _ _ _ _ (save_world c m i w)).
      rewrite (save_outcome w s resp Hs c m i Ht), Hbad.
      by apply status_error_readable.
    + intros i (s & Hs & Ht)%(answered_after _ _ _ _ (get_world i w)).
      rewrite (get_outcome w s resp Hs i Ht), Hbad.
      by apply status_error_readable.
    + intros i (s & Hs & Ht)%(answered_after _ _ _ _ (delete_world i w)).
      rewrite (delete_outcome w s resp Hs i Ht), Hbad.
      by apply status_error_readable.
    + intros (s & Hs & Ht)%(answered_after _ _ _ _ (list_world w)).
      rewrite (list_outcome w s resp Hs Ht), Hbad.
      by apply status_error_readable.
  - intros f Hf. repeat apply conj.
    + intros c m i (s & Hs & Ht)%(answered_after _ _ _ _ (save_world c m i w)).
      rewrite (save_outcome w s resp Hs c m i Ht), Hbad.
      by apply status_error_unreadable.
    + intros i (s & Hs & Ht)%(answered_after _ _ _ _ (get_world i w)).
      rewrite (get_outcome w s resp Hs i Ht), Hbad.
      by apply status_error_unreadable.
    + intros i (s & Hs & Ht)%(answered_after _ _ _ _ (delete_world i w)).
      rewrite (delete_outcome w s resp Hs i Ht), Hbad.
      by apply status_error_unreadable.
    + intros (s & Hs & Ht)%(answered_after _ _ _ _ (list_world w)).
      rewrite (list_outcome w s resp Hs Ht), Hbad.
      by apply status_error_unreadable.
Qed.

Lemma C1_status_error_message_witness :
  400 ≤ status forbidden
  ∧ text forbidden = Readable "Forbidden"
  ∧ fst (save ∅ None None (entered forbidden)) =
    Raise (Exception "Failed to save context: Forbidden")
  ∧ fst (get None (entered forbidden)) =
    Raise (Exception "Failed to get context: Forbidden")
  ∧ fst (delete None (entered forbidden)) =
    Raise (Exception "Failed to delete context: Forbidden")
  ∧ fst (CloudContext.list (entered forbidden)) =
    Raise (Exception "Failed to list contexts: Forbidden")
  ∧ text (garbled 502) = Unreadable BadEncoding
  ∧ fst (delete None (entered (garbled 502))) = Raise UnicodeDecodeError.
Proof.
  assert (400 ≤ status forbidden) as Hbad by (simpl; lia).
  destruct (proj1 (C1_status_error_message (entered forbidden) forbidden Hbad)
              "Forbidden" eq_refl)
    as (Hsave & Hget & Hdelete & Hlist).
  assert (400 ≤ status (garbled 502)) as Hbad' by (simpl; lia).
  destruct (proj2 (C1_status_error_message (entered (garbled 502)) (garbled 502) Hbad')
              BadEncoding eq_refl)
    as (_ & _ & Hdelete' & _).
  split; [exact Hbad|]. split; [reflexivity|].
  split; [apply Hsave; eapply entered_answered, save_world|].
  split; [apply Hget; eapply entered_answered, get_world|].
  split; [apply Hdelete; eapply entered_answered, delete_world|].
  split; [apply Hlist; eapply entered_answered, list_world|].
  split; [reflexivity|].
  apply Hdelete'. eapply entered_answered, delete_world.
Defined.

(** ** The context-identifier header *)

(** An argument that is the empty string is not sent: the request carries
    the client's own identifier instead. *)
Lemma C2_empty_id_not_sent :
  sent_by (save ∅ None (Some "")) (entered (ok VNone)) =
    [save_request (self (entered (ok VNone))) ∅ None (Some "")]
  ∧ headers (save_request (self (entered (ok VNone))) ∅ None (Some ""))
      !! "X-Context-ID" = Some "default"
  ∧ ¬ (∀ r, r ∈ sent_by (save ∅ None (Some "")) (entered (ok VNone)) →
            headers r !! "X-Context-ID" = Some "").
Proof.
  assert (sent_by (save ∅ None (Some "")) (entered (ok VNone)) =
            [save_request (self (entered (ok VNone))) ∅ None (Some "")]) as Hsent.
  { rewrite (sent_by_after _ _ _ (save_world _ _ _ _)). reflexivity. }
  assert (headers (save_request (self (entered (ok VNone))) ∅ None (Some ""))
            !! "X-Context-ID" = Some "default") as Hid.
  { apply scoped_headers_id. }
  split; [exact Hsent|]. split; [exact Hid|].
  intros Hall. rewrite Hsent in Hall.
  specialize (Hall _ (list_elem_of_here _ _)).
  rewrite Hid in Hall. discriminate.
Qed.

(** C2, amended.  Every request sent by save, get or delete carries the
    header [X-Context-ID]; its value is the [context_id] argument when one
    is given and is not the empty string, and the identifier the client was
    built with otherwise.  No request sent by list carries that header. *)
Theorem C2_context_header (w : World) (i : option string) :
  (∀ c m r, r ∈ sent_by (save c m i) w →
     headers r !! "X-Context-ID" = Some (effective_id (self w) i))
  ∧ (∀ r, r ∈ sent_by (get i) w →
     headers r !! "X-Context-ID" = Some (effective_id (self w) i))
  ∧ (∀ r, r ∈ sent_by (delete i) w →
     headers r !! "X-Context-ID" = Some (effective_id (self w) i))
  ∧ (∀ r, r ∈ sent_by CloudContext.list w →
     headers r !! "X-Context-ID" = None).
Proof.
  repeat split.
  - intros c m r. rewrite (sent_by_after _ _ _ (save_world c m i w)).
    destruct (session (self w)); [|by intros ?%elem_of_nil].
    intros ->%list_elem_of_singleton. apply scoped_headers_id.
  - intros r. rewrite (sent_by_after _ _ _ (get_world i w)).
    destruct (session (self w)); [|by intros ?%elem_of_nil].
    intros ->%list_elem_of_singleton. apply scoped_headers_id.
  - intros r. rewrite (sent_by_after _ _ _ (delete_world i w)).
    destruct (session (self w)); [|by intros ?%elem_of_nil].
    intros ->%list_elem_of_singleton. apply scoped_headers_id.
  - intros r. rewrite (sent_by_after _ _ _ (list_world w)).
    destruct (session (self w)); [|by intros ?%elem_of_nil].
    intros ->%list_elem_of_singleton. apply list_headers_no_id.
Qed.

Lemma entered_sends {A} (op : M World A) (r : Request) (resp : ClientResponse) :
  snd (op (entered resp)) = after_call (entered resp) r →
  r ∈ sent_by op (entered resp).
Proof.
  intros Hw. rewrite (sent_by_after op _ r Hw). apply list_elem_of_here.
Qed.

Lemma C2_context_header_witness :
  save_request (self (entered forbidden)) ∅ None (Some "custom-context")
    ∈ sent_by (save ∅ None (Some "custom-context")) (entered forbidden)
  ∧ headers (save_request (self (entered forbidden)) ∅ None (Some "custom-context"))
      !! "X-Context-ID" = Some "custom-context"
  ∧ get_request (self (entered forbidden)) None
      ∈ sent_by (get None) (entered forbidden)
  ∧ headers (get_request (self (entered forbidden)) None)
      !! "X-Context-ID" = Some "default"
  ∧ delete_request (self (entered forbidden)) (Some "")
      ∈ sent_by (delete (Some "")) (entered forbidden)
  ∧ headers (delete_request (self (entered forbidden)) (Some ""))
      !! "X-Context-ID" = Some "default"
  ∧ list_request (self (entered forbidden))
      ∈ sent_by CloudContext.list (entered forbidden)
  ∧ headers (list_request (self (entered forbidden))) !! "X-Context-ID" = None.
Proof.
  pose proof (entered_sends _ _ forbidden
                (save_world ∅ None (Some "custom-context") _)) as Hsave.
  pose proof (entered_sends _ _ forbidden (get_world None _)) as Hget.
  pose proof (entered_sends _ _ forbidden (delete_world (Some "") _)) as Hdel.
  pose proof (entered_sends _ _ forbidden (list_world _)) as Hlist.
  split; [exact Hsave|].
  split; [exact (proj1 (C2_context_header _ (Some "custom-context")) _ _ _ Hsave)|].
  split; [exact Hget|].
  split; [exact (proj1 (proj2 (C2_context_header _ None)) _ Hget)|].
  split; [exact Hdel|].
  split; [exact (proj1 (proj2 (proj2 (C2_context_header _ (Some "")))) _ Hdel)|].
  split; [exact Hlist|].
  exact (proj2 (proj2 (proj2 (C2_context_header _ None))) _ Hlist).
Defined.

(** ** The result of save *)

(** A body with the four fields and one more is refused by the constructor
    of [SaveResult]: save raises [TypeError] and returns nothing. *)
Lemma C3_extra_field_refused :
  answered (save ∅ None None) (entered (ok (VDict extra_body))) (ok (VDict extra_body))
  ∧ extra_body !! "success" = Some (VBool true)
  ∧ extra_body !! "context_id" = Some (VStr "c")
  ∧ extra_body !! "version" = Some (VInt 1)
  ∧ extra_body !! "timestamp" = Some (VStr "T")
  ∧ fst (save ∅ None None (entered (ok (VDict extra_body)))) = Raise TypeError
  ∧ fst (save ∅ None None (entered (ok (VDict extra_body))))
      ≠ Return (SaveResult.mk (VBool true) (VStr "c") (VInt 1) (VStr "T")).
Proof.
  assert (fst (save ∅ None None (entered (ok (VDict extra_body)))) = Raise TypeError)
    as Hout.
  { rewrite (save_outcome (entered (ok (VDict extra_body))) {| sid := 0 |}
               (ok (VDict extra_body)) eq_refl ∅ None None eq_refl).
    simpl. apply (SaveResult_init_unexpected extra_body "extra").
    - refine (bool_decide_unpack _ _). vm_compute. exact I.
    - exists VNone. apply lookup_insert_eq. }
  split; [eapply entered_answered, save_world|].
  do 4 (split; [reflexivity|]).
  split; [exact Hout|].
  rewrite Hout. discriminate.
Qed.

(** C3, amended.  On a 200 response whose body is a JSON object with the
    fields success, context_id, version and timestamp and no other, save
    returns a [SaveResult] holding the four values as they came, whatever
    their types.  On a 200 response whose body is a JSON object with any
    field other than these four, save raises [TypeError] and returns no
    result, whether the four fields are there or not. *)
Theorem C3_save_result (w : World) (c : gmap string value)
    (m : option (gmap string value)) (i : option string)
    (resp : ClientResponse) (d : gmap string value) :
  answered (save c m i) w resp →
  status resp = 200 →
  body resp = Decoded (VDict d) →
  (∀ a b v t,
     dom d = SaveResult.fields →
     d !! "success" = Some a →
     d !! "context_id" = Some b →
     d !! "version" = Some v →
     d !! "timestamp" = Some t →
     fst (save c m i w) = Return (SaveResult.mk a b v t))
  ∧ (∀ f x,
     f ∉ SaveResult.fields →
     d !! f = Some x →
     fst (save c m i w) = Raise TypeError
     ∧ ∀ r, fst (save c m i w) ≠ Return r).
Proof.
  intros (s & Hs & Ht)%(answered_after _ _ _ _ (save_world c m i w)).
  intros Hst Hbody.
  rewrite (save_outcome w s resp Hs c m i Ht), Hst, Hbody. simpl. split.
  - intros a b v t Hdom Ha Hb Hv Htm. by apply SaveResult_init_exact.
  - intros f x Hf Hx.
    rewrite (SaveResult_init_unexpected d f Hf (mk_is_Some _ _ Hx)).
    split; [reflexivity|discriminate].
Qed.

Lemma C3_save_result_witness :
  fst (save {[ "k" := VInt 1 ]} None None (entered (ok (VDict saved_body)))) =
    Return (SaveResult.mk (VBool true) (VStr "c") (VInt 1) (VStr "T"))
  ∧ ("id" ∉ SaveResult.fields)
  ∧ fst (save {[ "k" := VInt 1 ]} None None
           (entered (ok (VDict (<[ "id" := VInt 7 ]> saved_body))))) =
    Raise TypeError.
Proof.
  assert ("id" ∉ SaveResult.fields) as Hid.
  { refine (bool_decide_unpack _ _). vm_compute. exact I. }
  split; [|split; [exact Hid|]].
  - refine (proj1 (C3_save_result _ {[ "k" := VInt 1 ]} None None
                     (ok (VDict saved_body)) saved_body _ eq_refl eq_refl)
              _ _ _ _ eq_refl eq_refl eq_refl eq_refl eq_refl).
    eapply entered_answered, save_world.
  - refine (proj1 (proj2 (C3_save_result _ {[ "k" := VInt 1 ]} None None
                     (ok (VDict (<[ "id" := VInt 7 ]> saved_body)))
                     (<[ "id" := VInt 7 ]> saved_body) _ eq_refl eq_refl)
              "id" (VInt 7) Hid (lookup_insert_eq _ _ _))).
    eapply entered_answered, save_world.
Defined.

(** ** Failure to decode *)

Lemma decode_not_request (e : PyExn) : DecodeError e → ¬ RequestFailed e.
Proof. intros [-> | [-> | [-> | ->]]] [msg Hmsg]; discriminate. Qed.

(** C4.  When the response to save has status 200 and its body is not valid
    JSON (it is malformed, it is not announced as JSON, its bytes are not
    text, or it is empty or another JSON value that is not an object), or
    is an object that lacks one of success, context_id, version and
    timestamp, save raises a decoding error: [JSONDecodeError],
    [ContentTypeError] or [UnicodeDecodeError] from the decoder, and
    [TypeError] from the constructor of [SaveResult] for a decoded body
    that is not an object with the four fields.  None of these is the
    error raised on a bad status, and each is caught by an [except] clause
    that does not catch the error raised on a bad status. *)
Theorem C4_decode_error (w : World) (c : gmap string value)
    (m : option (gmap string value)) (i : option string)
    (resp : ClientResponse) :
  answered (save c m i) w resp →
  status resp = 200 →
  (body resp = Malformed
   ∨ body resp = WrongContentType
   ∨ body resp = Unread BadEncoding
   ∨ (∃ v, body resp = Decoded v ∧ ∀ d, v ≠ VDict d)
   ∨ ∃ d f, body resp = Decoded (VDict d) ∧ f ∈ SaveResult.fields ∧ d !! f = None) →
  ∃ e, fst (save c m i w) = Raise e
       ∧ e = match body resp with
             | Malformed => JSONDecodeError
             | WrongContentType => ContentTypeError
             | Unread _ => UnicodeDecodeError
             | Decoded _ => TypeError
             end
       ∧ DecodeError e ∧ ¬ RequestFailed e
       ∧ ∃ h, caught_by e h = true ∧ ∀ msg, caught_by (Exception msg) h = false.
Proof.
  intros (s & Hs & Ht)%(answered_after _ _ _ _ (save_world c m i w)) Hst Hbody.
  rewrite (save_outcome w s resp Hs c m i Ht), Hst. simpl.
  assert (∀ e h, DecodeError e → caught_by e h = true → h ≠ ExceptException →
            DecodeError e ∧ ¬ RequestFailed e
            ∧ ∃ h, caught_by e h = true ∧ ∀ msg, caught_by (Exception msg) h = false)
    as Hfin.
  { intros e h He Hh Hne. split; [exact He|].
    split; [by apply decode_not_request|].
    exists h. split; [exact Hh|]. intros msg. by destruct h. }
  destruct Hbody
    as [-> | [-> | [-> | [(v & -> & Hshape) | (d & f & -> & Hf & Hnone)]]]];
    simpl.
  - eexists. split; [reflexivity|]. split; [reflexivity|].
    apply (Hfin _ ExceptValueError); [left| |]; done.
  - eexists. split; [reflexivity|]. split; [reflexivity|].
    apply (Hfin _ ExceptClientError); [right; left| |]; done.
  - eexists. split; [reflexivity|]. split; [reflexivity|].
    apply (Hfin _ ExceptValueError); [right; right; left| |]; done.
  - exists TypeError. split.
    + destruct v; try reflexivity. by destruct (Hshape d).
    + split; [reflexivity|].
      apply (Hfin _ ExceptTypeError); [right; right; right| |]; done.
  - exists TypeError. rewrite (SaveResult_init_missing d f Hf Hnone).
    split; [reflexivity|]. split; [reflexivity|].
    apply (Hfin _ ExceptTypeError); [right; right; right| |]; done.
Qed.

(** Every error of the client is an [Exception]: a clause that catches the
    error raised on a bad status catches the decoding errors too. *)
Lemma caught_as_Exception (e : PyExn) : caught_by e ExceptException = true.
Proof. reflexivity. Qed.

Lemma C4_decode_error_witness :
  fst (save ∅ None None
         (entered {| status := 200; text := Readable "<html>"; body := Malformed |}))
    = Raise JSONDecodeError
  ∧ fst (save ∅ None None (entered (garbled 200))) = Raise UnicodeDecodeError
  ∧ fst (save ∅ None None (entered (ok VNone))) = Raise TypeError
  ∧ fst (save ∅ None None (entered (ok (VDict (base.delete "version" saved_body)))))
    = Raise TypeError.
Proof.
  split; [|split; [|split]].
  - destruct (C4_decode_error _ ∅ None None
                {| status := 200; text := Readable "<html>"; body := Malformed |}
                (entered_answered _ _ _ (save_world _ _ _ _)) eq_refl
                (or_introl eq_refl)) as (e & Hrun & -> & _).
    exact Hrun.
  - destruct (C4_decode_error _ ∅ None None (garbled 200)
                (entered_answered _ _ _ (save_world _ _ _ _)) eq_refl
                (or_intror (or_intror (or_introl eq_refl)))) as (e & Hrun & -> & _).
    exact Hrun.
  - assert (∃ v, body (ok VNone) = Decoded v ∧ ∀ d, v ≠ VDict d) as Hnone.
    { exists VNone. split; [reflexivity|discriminate]. }
    destruct (C4_decode_error _ ∅ None None (ok VNone)
                (entered_answered _ _ _ (save_world _ _ _ _)) eq_refl
                (or_intror (or_intror (or_intror (or_introl Hnone)))))
      as (e & Hrun & -> & _).
    exact Hrun.
  - assert (∃ d f, body (ok (VDict (base.delete "version" saved_body)))
                   = Decoded (VDict d)
                   ∧ f ∈ SaveResult.fields ∧ d !! f = None) as Hmiss.
    { exists (base.delete "version" saved_body), "version".
      split; [reflexivity|]. split; [|apply lookup_delete_eq].
      refine (bool_decide_unpack _ _). vm_compute. exact I. }
    destruct (C4_decode_error _ ∅ None None
                (ok (VDict (base.delete "version" saved_body)))
                (entered_answered _ _ _ (save_world _ _ _ _)) eq_refl
                (or_intror (or_intror (or_intror (or_intror Hmiss)))))
      as (e & Hrun & -> & _).
    exact Hrun.
Defined.

(** ** The request of save *)

(** C5.  For every content and metadata, save hands exactly one request to
    the session: a POST to the base URL followed by [/api/context], whose
    JSON body is the mapping with [content] and [metadata] as given; a
    metadata argument left out is sent as the empty mapping. *)
Theorem C5_save_posts_payload (w : World) (s : ClientSession)
    (c : gmap string value) (m : option (gmap string value)) (i : option string) :
  session (self w) = Some s →
  ∃ r, sent_by (save c m i) w = [r]
       ∧ method r = POST
       ∧ url r = base_url (self w) +:+ "/api/context"
       ∧ json r = Some (VDict {[ "content" := VDict c;
                                 "metadata" := VDict (default ∅ m) ]}).
Proof.
  intros Hs. exists (save_request (self w) c m i).
  rewrite (sent_by_after _ _ _ (save_world c m i w)), Hs.
  repeat split. simpl. rewrite or_else_mapping. reflexivity.
Qed.

Lemma C5_save_posts_payload_witness :
  session (self (entered forbidden)) = Some {| sid := 0 |}
  ∧ ∃ r, sent_by (save {[ "k" := VInt 1 ]} None None) (entered forbidden) = [r]
       ∧ method r = POST
       ∧ url r = "https://x.test/api/context"
       ∧ json r = Some (VDict {[ "content" := VDict {[ "k" := VInt 1 ]};
                                 "metadata" := VDict ∅ ]}).
Proof.
  split; [reflexivity|].
  exact (C5_save_posts_payload (entered forbidden) {| sid := 0 |}
           {[ "k" := VInt 1 ]} None None eq_refl).
Defined.

(** ** Construction *)

(** C6.  A client built with base URL ["https://x.test/"] has base URL
    ["https://x.test"], and a client built without a context identifier
    has the identifier ["default"]. *)
Theorem C6_constructor (u k : string) (i : option string) :
  base_url (__init__ "https://x.test/" k i) = "https://x.test"
  ∧ context_id (__init__ u k None) = "default".
Proof. split; reflexivity. Qed.

(** ** The result of list and of delete *)

(** C7.  On a 200 response whose body is a JSON object, list returns the
    value found under [contexts] as it is: a sequence comes back with its
    items in the order of the body. *)
Theorem C7_list_contexts (w : World) (resp : ClientResponse)
    (d : gmap string value) (v : value) :
  answered CloudContext.list w resp →
  status resp = 200 →
  body resp = Decoded (VDict d) →
  d !! "contexts" = Some v →
  fst (CloudContext.list w) = Return v.
Proof.
  intros (s & Hs & Ht)%(answered_after _ _ _ _ (list_world w)) Hst Hbody Hv.
  rewrite (list_outcome w s resp Hs Ht), Hst, Hbody. simpl.
  rewrite Hv. reflexivity.
Qed.

Lemma C7_list_contexts_witness :
  fst (CloudContext.list (entered (ok (VDict {[ "contexts" := VList [] ]}))))
    = Return (VList [])
  ∧ fst (CloudContext.list
           (entered (ok (VDict {[ "contexts" := VList [VStr "a"; VStr "b"] ]}))))
    = Return (VList [VStr "a"; VStr "b"]).
Proof.
  split.
  - apply (C7_list_contexts _ (ok (VDict {[ "contexts" := VList [] ]}))
             {[ "contexts" := VList [] ]}); try reflexivity.
    eapply entered_answered, list_world.
  - apply (C7_list_contexts _
             (ok (VDict {[ "contexts" := VList [VStr "a"; VStr "b"] ]}))
             {[ "contexts" := VList [VStr "a"; VStr "b"] ]}); try reflexivity.
    eapply entered_answered, list_world.
Defined.

(** C8.  On a 200 response delete returns [True], whatever the body of
    the response holds. *)
Theorem C8_delete_true (w : World) (i : option string) (resp : ClientResponse) :
  answered (delete i) w resp →
  status resp = 200 →
  fst (delete i w) = Return true.
Proof.
  intros (s & Hs & Ht)%(answered_after _ _ _ _ (delete_world i w)) Hst.
  rewrite (delete_outcome w s resp Hs i Ht), Hst. reflexivity.
Qed.

Lemma C8_delete_true_witness :
  fst (delete None (entered (ok (VDict ∅)))) = Return true
  ∧ fst (delete (Some "c")
           (entered {| status := 200; text := Readable "gone"; body := Malformed |}))
    = Return true.
Proof.
  split.
  - apply (C8_delete_true _ _ (ok (VDict ∅))); [|reflexivity].
    eapply entered_answered, delete_world.
  - apply (C8_delete_true _ _ {| status := 200; text := Readable "gone"; body := Malformed |});
      [|reflexivity].
    eapply entered_answered, delete_world.
Defined.

(** ** The client object is only read *)

Lemma self_after_call w r : self (after_call w r) = self w.
Proof. unfold after_call. destruct (session (self w)); reflexivity. Qed.

Lemma save_self c m i w : self (snd (save c m i w)) = self w.
Proof. rewrite save_world. apply self_after_call. Qed.

Lemma get_self i w : self (snd (get i w)) = self w.
Proof. rewrite get_world. apply self_after_call. Qed.

Lemma delete_self i w : self (snd (delete i w)) = self w.
Proof. rewrite delete_world. apply self_after_call. Qed.

Lemma list_self w : self (snd (CloudContext.list w)) = self w.
Proof. rewrite list_world. apply self_after_call. Qed.

(** C10.  save, get, delete and list leave the client as it was: whether
    the call returns or raises, the base URL, the API key, the default
    context identifier and the session of the client are the ones it had
    before the call. *)
Theorem C10_client_unchanged (w : World) :
  (∀ c m i, self (snd (save c m i w)) = self w)
  ∧ (∀ i, self (snd (get i w)) = self w)
  ∧ (∀ i, self (snd (delete i w)) = self w)
  ∧ self (snd (CloudContext.list w)) = self w.
Proof.
  split; [intros; apply save_self|].
  split; [intros; apply get_self|].
  split; [intros; apply delete_self|].
  apply list_self.
Qed.

(** ** The scope of a session *)

Lemma bind_drop_snd {A} (op : M World A) (w : World) :
  snd ((_ <- op ;; ret tt) w) = snd (op w).
Proof. unfold bind, ret. destruct (op w) as [[a|e] w']; reflexivity. Qed.

Lemma run_op_self o w : self (snd (run_op o w)) = self w.
Proof.
  destruct o; unfold run_op; rewrite bind_drop_snd;
    auto using save_self, get_self, delete_self, list_self.
Qed.

(** A body made of calls on the client leaves its session in place. *)
Lemma run_ops_self os w : self (snd (run_ops os w)) = self w.
Proof.
  revert w. induction os as [|o os IH]; intros w; [reflexivity|].
  simpl. unfold bind. pose proof (run_op_self o w) as Ho.
  destruct (run_op o w) as [[[]|e] w']; simpl in *.
  - rewrite IH. exact Ho.
  - exact Ho.
Qed.

Lemma aenter_run w :
  __aenter__ w =
    (Return tt,
     {| self := {| base_url := base_url (self w); api_key := api_key (self w);
                   context_id := context_id (self w);
                   session := Some {| sid := fresh w |} |};
        trace := trace w ++ [Created {| sid := fresh w |}];
        fresh := S (fresh w);
        transport := transport w |}).
Proof. reflexivity. Qed.

(** [__aexit__] does the same whatever exception it is told of. *)
Lemma aexit_some exc w s :
  session (self w) = Some s → __aexit__ exc w = (Return tt, emit (Closed s) w).
Proof.
  intros Hs. unfold __aexit__, session_close.
  rewrite bind_gets, Hs. simpl. rewrite bind_gets, Hs. reflexivity.
Qed.

Lemma aexit_none exc w :
  session (self w) = None → __aexit__ exc w = (Return tt, w).
Proof. intros Hs. unfold __aexit__. rewrite bind_gets, Hs. reflexivity. Qed.

Lemma closed_app s t1 t2 : closed s (t1 ++ t2) = closed s t1 || closed s t2.
Proof.
  induction t1 as [|e t1 IH]; [reflexivity|].
  destruct e; simpl; rewrite IH; [reflexivity|reflexivity|].
  apply orb_assoc.
Qed.

Lemma created_app s t1 t2 : created s (t1 ++ t2) = created s t1 || created s t2.
Proof.
  induction t1 as [|e t1 IH]; [reflexivity|].
  destruct e; simpl; rewrite IH; [|reflexivity|reflexivity].
  apply orb_assoc.
Qed.

Lemma closed_emit s w : closed s (trace (emit (Closed s) w)) = true.
Proof.
  rewrite trace_emit, closed_app. simpl.
  rewrite Nat.eqb_refl. simpl. apply orb_true_r.
Qed.

(** A scope entered inside the scope of the same client, around an empty
    body: the second entry replaces the session of the first, the exits
    close the second session twice, and the session created by the first
    entry is never closed. *)
Lemma C9_reentered_scope_unclosed :
  session (self (snd (__aenter__ (boot (always forbidden))))) = Some {| sid := 0 |}
  ∧ fst (scoped (scoped (ret tt)) (boot (always forbidden))) = Return tt
  ∧ trace (snd (scoped (scoped (ret tt)) (boot (always forbidden))))
    = [Created {| sid := 0 |}; Created {| sid := 1 |};
       Closed {| sid := 1 |}; Closed {| sid := 1 |}]
  ∧ closed {| sid := 0 |}
      (trace (snd (scoped (scoped (ret tt)) (boot (always forbidden))))) = false.
Proof. repeat split; reflexivity. Qed.

(** C9, amended.  Entering the scope of the client creates a session and
    stores it on the client.  If the body of the scope leaves the [session]
    attribute of the client as the entry set it, then however the body
    ends, by returning or by raising, that session is closed on the way out
    and the outcome of the body is passed on. *)
Theorem C9_session_scope {A} (body : M World A) (w : World)
    (out : Outcome A) (w2 : World) :
  body (snd (__aenter__ w)) = (out, w2) →
  session (self w2) = session (self (snd (__aenter__ w))) →
  session (self (snd (__aenter__ w))) = Some {| sid := fresh w |}
  ∧ created {| sid := fresh w |} (trace (snd (__aenter__ w))) = true
  ∧ scoped body w = (out, emit (Closed {| sid := fresh w |}) w2)
  ∧ closed {| sid := fresh w |} (trace (snd (scoped body w))) = true.
Proof.
  intros Hbody Hkept.
  assert (scoped body w = (out, emit (Closed {| sid := fresh w |}) w2)) as Hrun.
  { unfold scoped, async_with. rewrite aenter_run in *. simpl in *.
    rewrite Hbody. rewrite (aexit_some _ w2 {| sid := fresh w |} Hkept).
    reflexivity. }
  split; [reflexivity|]. split.
  - rewrite aenter_run. simpl. rewrite created_app. simpl.
    rewrite Nat.eqb_refl. simpl. apply orb_true_r.
  - split; [exact Hrun|]. rewrite Hrun. apply closed_emit.
Qed.

(** The scope around calls on the client: the session is closed whether
    the calls succeed or one of them raises. *)
Lemma scoped_ops_closed os w :
  closed {| sid := fresh w |} (trace (snd (scoped (run_ops os) w))) = true
  ∧ fst (scoped (run_ops os) w) = fst (run_ops os (snd (__aenter__ w))).
Proof.
  pose proof (run_ops_self os (snd (__aenter__ w))) as Hself.
  destruct (run_ops os (snd (__aenter__ w))) as [out w2] eqn:Hbody.
  simpl in Hself.
  assert (scoped (run_ops os) w = (out, emit (Closed {| sid := fresh w |}) w2)) as Hrun.
  { unfold scoped, async_with. rewrite aenter_run in *. simpl in *.
    rewrite Hbody. rewrite (aexit_some _ w2 {| sid := fresh w |}); [reflexivity|].
    rewrite Hself. reflexivity. }
  rewrite Hrun. split; [apply closed_emit|reflexivity].
Qed.

Lemma C9_session_scope_witness :
  (scoped (run_ops [Delete None]) (boot (always (ok VNone))) =
     (Return tt,
      emit (Closed {| sid := 0 |})
        (snd (run_ops [Delete None] (entered (ok VNone)))))
   ∧ closed {| sid := 0 |}
       (trace (snd (scoped (run_ops [Delete None]) (boot (always (ok VNone)))))) = true)
  ∧ (scoped (run_ops [Get None; List]) (boot (always forbidden)) =
       (Raise (Exception "Failed to get context: Forbidden"),
        emit (Closed {| sid := 0 |})
          (snd (run_ops [Get None; List] (entered forbidden))))
     ∧ closed {| sid := 0 |}
         (trace (snd (scoped (run_ops [Get None; List]) (boot (always forbidden))))) = true).
Proof.
  split.
  - pose proof (C9_session_scope (run_ops [Delete None]) (boot (always (ok VNone)))
                  (Return tt) (snd (run_ops [Delete None] (entered (ok VNone))))
                  eq_refl eq_refl) as (_ & _ & Hrun & Hclosed).
    split; [exact Hrun | exact Hclosed].
  - pose proof (C9_session_scope (run_ops [Get None; List]) (boot (always forbidden))
                  (Raise (Exception "Failed to get context: Forbidden"))
                  (snd (run_ops [Get None; List] (entered forbidden)))
                  eq_refl eq_refl) as (_ & _ & Hrun & Hclosed).
    split; [exact Hrun | exact Hclosed].
Defined.

(** * More of the client *)

(** ** Calls that do not reach the server *)

Lemma get_without_session (w : World) i :
  session (self w) = None → get i w = (Raise AttributeError, w).
Proof.
  intros Hs. unfold get. rewrite bind_gets. cbv zeta.
  apply request_block_none. exact Hs.
Qed.

Lemma delete_without_session (w : World) i :
  session (self w) = None → delete i w = (Raise AttributeError, w).
Proof.
  intros Hs. unfold delete. rewrite bind_gets. cbv zeta.
  apply request_block_none. exact Hs.
Qed.

Lemma list_without_session (w : World) :
  session (self w) = None → CloudContext.list w = (Raise AttributeError, w).
Proof.
  intros Hs. unfold CloudContext.list. rewrite bind_gets. cbv zeta.
  apply request_block_none. exact Hs.
Qed.

Lemma save_without_session (w : World) c m i :
  session (self w) = None → save c m i w = (Raise AttributeError, w).
Proof.
  intros Hs. unfold save. rewrite bind_gets. cbv zeta.
  apply request_block_none. exact Hs.
Qed.

(** X1.  On a client that holds no session, which is how [__init__] leaves
    it, save, get, delete and list all raise [AttributeError]; nothing is
    handed to any session and nothing else changes. *)
Theorem X1_no_session (w : World) :
  session (self w) = None →
  (∀ c m i, save c m i w = (Raise AttributeError, w))
  ∧ (∀ i, get i w = (Raise AttributeError, w))
  ∧ (∀ i, delete i w = (Raise AttributeError, w))
  ∧ CloudContext.list w = (Raise AttributeError, w).
Proof.
  intros Hs.
  split; [intros; by apply save_without_session|].
  split; [intros; by apply get_without_session|].
  split; [intros; by apply delete_without_session|].
  by apply list_without_session.
Qed.

Lemma X1_no_session_witness :
  session (self (boot (always forbidden))) = None
  ∧ save ∅ None None (boot (always forbidden))
      = (Raise AttributeError, boot (always forbidden))
  ∧ CloudContext.list (boot (always forbidden))
      = (Raise AttributeError, boot (always forbidden)).
Proof.
  pose proof (X1_no_session (boot (always forbidden)) eq_refl)
    as (Hsave & _ & _ & Hlist).
  split; [reflexivity|]. split; [apply Hsave | exact Hlist].
Defined.

Lemma refused_after {A} (op : M World A) (w : World) (r : Request) (e : PyExn) :
  snd (op w) = after_call w r →
  refused op w e ↔
  ∃ s, session (self w) = Some s ∧ transport w (trace w) s r = Raise e.
Proof.
  intros Hw. unfold refused. rewrite (sent_by_after op w r Hw). split.
  - intros (s & r' & Hs & Hr & Ht). rewrite Hs in Hr.
    injection Hr as <-. eauto.
  - intros (s & Hs & Ht). exists s, r. rewrite Hs. auto.
Qed.

(** X2.  An exception raised by the transport while the request is made
    (connection refused, timeout) comes out of save, get, delete and list
    as it is: it is neither caught nor turned into the client's own
    error. *)
Theorem X2_transport_error_propagates (w : World) (e : PyExn) :
  (∀ c m i, refused (save c m i) w e → fst (save c m i w) = Raise e)
  ∧ (∀ i, refused (get i) w e → fst (get i w) = Raise e)
  ∧ (∀ i, refused (delete i) w e → fst (delete i w) = Raise e)
  ∧ (refused CloudContext.list w e → fst (CloudContext.list w) = Raise e).
Proof.
  repeat split.
  - intros c m i (s & Hs & Ht)%(refused_after _ _ _ _ (save_world c m i w)).
    unfold save. rewrite bind_gets. cbv zeta.
    rewrite (request_block_some _ _ _ _ _ save_reads w s Hs).
    unfold save_request, scoped_headers in Ht. rewrite Ht. reflexivity.
  - intros i (s & Hs & Ht)%(refused_after _ _ _ _ (get_world i w)).
    unfold get. rewrite bind_gets. cbv zeta.
    rewrite (request_block_some _ _ _ _ _ get_reads w s Hs).
    unfold get_request, scoped_headers in Ht. rewrite Ht. reflexivity.
  - intros i (s & Hs & Ht)%(refused_after _ _ _ _ (delete_world i w)).
    unfold delete. rewrite bind_gets. cbv zeta.
    rewrite (request_block_some _ _ _ _ _ delete_reads w s Hs).
    unfold delete_request, scoped_headers in Ht. rewrite Ht. reflexivity.
  - intros (s & Hs & Ht)%(refused_after _ _ _ _ (list_world w)).
    unfold CloudContext.list. rewrite bind_gets. cbv zeta.
    rewrite (request_block_some _ _ _ _ _ list_reads w s Hs).
    unfold list_request in Ht. rewrite Ht. reflexivity.
Qed.

Lemma cut_off_refused {A} (op : M World A) (r : Request) (e : PyExn) :
  snd (op (cut_off e)) = after_call (cut_off e) r →
  refused op (cut_off e) e.
Proof.
  intros Hw. apply (refused_after op _ r e Hw).
  exists {| sid := 0 |}. split; reflexivity.
Qed.

Lemma X2_transport_error_propagates_witness :
  fst (save ∅ None None (cut_off (ClientError "Connection failed")))
    = Raise (ClientError "Connection failed")
  ∧ fst (get None (cut_off TimeoutError)) = Raise TimeoutError
  ∧ fst (delete None (cut_off TimeoutError)) = Raise TimeoutError
  ∧ fst (CloudContext.list (cut_off TimeoutError)) = Raise TimeoutError.
Proof.
  split; [|split; [|split]].
  - apply (proj1 (X2_transport_error_propagates _ _)).
    eapply cut_off_refused, save_world.
  - apply (proj1 (proj2 (X2_transport_error_propagates _ _))).
    eapply cut_off_refused, get_world.
  - apply (proj1 (proj2 (proj2 (X2_transport_error_propagates _ _)))).
    eapply cut_off_refused, delete_world.
  - apply (proj2 (proj2 (proj2 (X2_transport_error_propagates _ _)))).
    eapply cut_off_refused, list_world.
Defined.

(** ** The test of the status *)

Lemma other_status (resp : ClientResponse) :
  status resp ≠ 200 → negb (status resp =? 200) = true.
Proof. intros H. apply negb_true_iff, Z.eqb_neq. exact H. Qed.

(** X3.  Only the status 200 counts as success: on any other status, 201
    and 204 included, each method reads the body as text and nothing else
    of it.  When the text can be read the method raises its own error with
    that text in the message; when it cannot, the method raises the error
    of reading it. *)
Theorem X3_only_200_succeeds (w : World) (resp : ClientResponse) :
  status resp ≠ 200 →
  (∀ c m i, answered (save c m i) w resp →
     fst (save c m i w) = status_error resp "Failed to save context: ")
  ∧ (∀ i, answered (get i) w resp →
     fst (get i w) = status_error resp "Failed to get context: ")
  ∧ (∀ i, answered (delete i) w resp →
     fst (delete i w) = status_error resp "Failed to delete context: ")
  ∧ (answered CloudContext.list w resp →
     fst (CloudContext.list w) = status_error resp "Failed to list contexts: ")
  ∧ (∀ A prefix msg, text resp = Readable msg →
     status_error (A:=A) resp prefix = Raise (Exception (prefix +:+ msg)))
  ∧ (∀ A prefix f, text resp = Unreadable f →
     status_error (A:=A) resp prefix = Raise (read_exn f)).
Proof.
  intros Hbad%other_status. repeat apply conj.
  - intros c m i (s & Hs & Ht)%(answered_after _ _ _ _ (save_world c m i w)).
    rewrite (save_outcome w s resp Hs c m i Ht), Hbad. reflexivity.
  - intros i (s & Hs & Ht)%(answered_after _ _ _ _ (get_world i w)).
    rewrite (get_outcome w s resp Hs i Ht), Hbad. reflexivity.
  - intros i (s & Hs & Ht)%(answered_after _ _ _ _ (delete_world i w)).
    rewrite (delete_outcome w s resp Hs i Ht), Hbad. reflexivity.
  - intros (s & Hs & Ht)%(answered_after _ _ _ _ (list_world w)).
    rewrite (list_outcome w s resp Hs Ht), Hbad. reflexivity.
  - intros A prefix msg. apply status_error_readable.
  - intros A prefix f. apply status_error_unreadable.
Qed.

Lemma X3_only_200_succeeds_witness :
  status no_content ≠ 200
  ∧ fst (delete None (entered no_content)) =
      Raise (Exception "Failed to delete context: ")
  ∧ fst (save ∅ None None
           (entered {| status := 201; text := Readable "Created";
                       body := Decoded (VDict saved_body) |})) =
      Raise (Exception "Failed to save context: Created")
  ∧ fst (get None (entered (garbled 302))) = Raise UnicodeDecodeError.
Proof.
  assert (status no_content ≠ 200) as H204 by discriminate.
  split; [exact H204|]. split; [|split].
  - rewrite (proj1 (proj2 (proj2 (X3_only_200_succeeds _ no_content H204)))
               None (entered_answered _ _ _ (delete_world _ _))).
    reflexivity.
  - rewrite (proj1 (X3_only_200_succeeds _
               {| status := 201; text := Readable "Created";
                  body := Decoded (VDict saved_body) |}
               ltac:(discriminate))
               ∅ None None (entered_answered _ _ _ (save_world _ _ _ _))).
    reflexivity.
  - rewrite (proj1 (proj2 (X3_only_200_succeeds _ (garbled 302)
               ltac:(discriminate)))
               None (entered_answered _ _ _ (get_world _ _))).
    reflexivity.
Defined.

(** ** What get and list make of the body *)

(** X4.  On a 200 response get returns the decoded body as it is, whatever
    its shape: an object, a list, a string, a number or null. *)
Theorem X4_get_returns_body (w : World) (i : option string)
    (resp : ClientResponse) (v : value) :
  answered (get i) w resp →
  status resp = 200 →
  body resp = Decoded v →
  fst (get i w) = Return v.
Proof.
  intros (s & Hs & Ht)%(answered_after _ _ _ _ (get_world i w)) Hst Hbody.
  rewrite (get_outcome w s resp Hs i Ht), Hst, Hbody. reflexivity.
Qed.

Lemma X4_get_returns_body_witness :
  fst (get None (entered (ok (VDict {[ "content" := VStr "x"; "metadata" := VDict ∅ ]}))))
    = Return (VDict {[ "content" := VStr "x"; "metadata" := VDict ∅ ]})
  ∧ fst (get (Some "c") (entered (ok (VList [VInt 1; VNone]))))
    = Return (VList [VInt 1; VNone]).
Proof.
  split.
  - apply (X4_get_returns_body _ _
             (ok (VDict {[ "content" := VStr "x"; "metadata" := VDict ∅ ]})));
      [|reflexivity|reflexivity].
    eapply entered_answered, get_world.
  - apply (X4_get_returns_body _ _ (ok (VList [VInt 1; VNone])));
      [|reflexivity|reflexivity].
    eapply entered_answered, get_world.
Defined.

(** X5.  On a 200 response, an error raised by [resp.json()] comes out of
    get and list as it is: neither method catches it or turns it into the
    client's own error.  An empty body is no error to [resp.json()], which
    gives [None] for it: get then returns [None] and list raises
    [TypeError]. *)
Theorem X5_json_error_propagates (w : World) (resp : ClientResponse) :
  status resp = 200 →
  (∀ e, json_outcome (body resp) = Raise e →
     (∀ i, answered (get i) w resp → fst (get i w) = Raise e)
     ∧ (answered CloudContext.list w resp → fst (CloudContext.list w) = Raise e))
  ∧ (body resp = Decoded VNone →
     (∀ i, answered (get i) w resp → fst (get i w) = Return VNone)
     ∧ (answered CloudContext.list w resp →
        fst (CloudContext.list w) = Raise TypeError)).
Proof.
  intros Hst. split.
  - intros e He. split.
    + intros i (s & Hs & Ht)%(answered_after _ _ _ _ (get_world i w)).
      rewrite (get_outcome w s resp Hs i Ht), Hst. exact He.
    + intros (s & Hs & Ht)%(answered_after _ _ _ _ (list_world w)).
      rewrite (list_outcome w s resp Hs Ht), Hst. simpl. rewrite He.
      reflexivity.
  - intros Hbody. split.
    + intros i (s & Hs & Ht)%(answered_after _ _ _ _ (get_world i w)).
      rewrite (get_outcome w s resp Hs i Ht), Hst, Hbody. reflexivity.
    + intros (s & Hs & Ht)%(answered_after _ _ _ _ (list_world w)).
      rewrite (list_outcome w s resp Hs Ht), Hst, Hbody. reflexivity.
Qed.

Lemma X5_json_error_propagates_witness :
  json_outcome (body (garbled 200)) = Raise UnicodeDecodeError
  ∧ fst (get None (entered (garbled 200))) = Raise UnicodeDecodeError
  ∧ fst (CloudContext.list
           (entered {| status := 200; text := Readable "<html>";
                       body := WrongContentType |})) = Raise ContentTypeError
  ∧ fst (get None (entered (ok VNone))) = Return VNone
  ∧ fst (CloudContext.list (entered (ok VNone))) = Raise TypeError.
Proof.
  split; [reflexivity|]. split; [|split; [|split]].
  - refine (proj1 (proj1 (X5_json_error_propagates _ (garbled 200) eq_refl)
                     _ eq_refl) _ _).
    eapply entered_answered, get_world.
  - refine (proj2 (proj1 (X5_json_error_propagates _
              {| status := 200; text := Readable "<html>";
                 body := WrongContentType |} eq_refl) _ eq_refl) _).
    eapply entered_answered, list_world.
  - refine (proj1 (proj2 (X5_json_error_propagates _ (ok VNone) eq_refl)
                     eq_refl) _ _).
    eapply entered_answered, get_world.
  - refine (proj2 (proj2 (X5_json_error_propagates _ (ok VNone) eq_refl)
                     eq_refl) _).
    eapply entered_answered, list_world.
Defined.

(** X6.  On a 200 response list looks up [contexts] and nothing else: an
    object without that key gives [KeyError], and a body that is not an
    object (a list, a string, a number, null) gives [TypeError]. *)
Theorem X6_list_body_shape (w : World) (resp : ClientResponse) (v : value) :
  answered CloudContext.list w resp →
  status resp = 200 →
  body resp = Decoded v →
  (∀ d, v = VDict d → d !! "contexts" = None →
     fst (CloudContext.list w) = Raise (KeyError "contexts"))
  ∧ ((∀ d, v ≠ VDict d) → fst (CloudContext.list w) = Raise TypeError).
Proof.
  intros (s & Hs & Ht)%(answered_after _ _ _ _ (list_world w)) Hst Hbody.
  rewrite (list_outcome w s resp Hs Ht), Hst, Hbody. simpl. split.
  - intros d -> Hnone. simpl. rewrite Hnone. reflexivity.
  - intros Hshape. destruct v; try reflexivity. by destruct (Hshape d).
Qed.

Lemma X6_list_body_shape_witness :
  fst (CloudContext.list (entered (ok (VDict {[ "items" := VList [] ]}))))
    = Raise (KeyError "contexts")
  ∧ fst (CloudContext.list (entered (ok (VList [VStr "a"; VStr "b"]))))
    = Raise TypeError.
Proof.
  split.
  - refine (proj1 (X6_list_body_shape _ (ok (VDict {[ "items" := VList [] ]})) _
              _ eq_refl eq_refl) _ eq_refl _).
    + eapply entered_answered, list_world.
    + reflexivity.
  - refine (proj2 (X6_list_body_shape _ (ok (VList [VStr "a"; VStr "b"])) _
              _ eq_refl eq_refl) _).
    + eapply entered_answered, list_world.
    + discriminate.
Defined.

(** ** When save returns *)

(** X7.  On a 200 response save returns a result exactly when the decoded
    body is an object whose keys are success, context_id, version and
    timestamp and no other; any other body (not an object, a field short,
    a field too many, undecodable) makes it raise. *)
Theorem X7_save_returns_iff (w : World) (c : gmap string value)
    (m : option (gmap string value)) (i : option string)
    (resp : ClientResponse) :
  answered (save c m i) w resp →
  status resp = 200 →
  (∃ r, fst (save c m i w) = Return r) ↔
  (∃ d, body resp = Decoded (VDict d) ∧ dom d = SaveResult.fields).
Proof.
  intros (s & Hs & Ht)%(answered_after _ _ _ _ (save_world c m i w)) Hst.
  rewrite (save_outcome w s resp Hs c m i Ht), Hst. simpl. split.
  - intros [r Hr]. destruct (body resp) as [v| | |f]; try discriminate.
    destruct v; try discriminate. simpl in Hr.
    eexists. split; [reflexivity|]. apply SaveResult_init_returns. eauto.
  - intros (d & -> & Hdom). simpl. by apply SaveResult_init_returns.
Qed.

Lemma X7_save_returns_iff_witness :
  (∃ r, fst (save ∅ None None (entered (ok (VDict saved_body)))) = Return r)
  ∧ ¬ (∃ d, body (ok (VList [])) = Decoded (VDict d) ∧ dom d = SaveResult.fields)
  ∧ ¬ (∃ r, fst (save ∅ None None (entered (ok (VList [])))) = Return r).
Proof.
  assert (¬ (∃ d, body (ok (VList [])) = Decoded (VDict d)
                  ∧ dom d = SaveResult.fields)) as Hno.
  { intros (d & Hd & _). discriminate. }
  split; [|split; [exact Hno|]].
  - apply (proj2 (X7_save_returns_iff _ ∅ None None (ok (VDict saved_body))
                   (entered_answered _ _ _ (save_world _ _ _ _)) eq_refl)).
    exists saved_body. split; reflexivity.
  - intros Hr. apply Hno.
    exact (proj1 (X7_save_returns_iff _ ∅ None None (ok (VList []))
                    (entered_answered _ _ _ (save_world _ _ _ _)) eq_refl) Hr).
Defined.

(** X8.  The constructor of [SaveResult], called with keyword arguments,
    returns [r] exactly when the arguments are the four fields of [r], each
    under its own name: nothing is converted, defaulted or dropped. *)
Theorem X8_SaveResult_kwargs (kw : gmap string value) (r : SaveResult.t) :
  SaveResult.__init__ kw = Return r ↔ kw = as_kwargs r.
Proof.
  split.
  - intros Hr. unfold SaveResult.__init__ in Hr.
    case_bool_decide as Hsub; [|discriminate].
    destruct (kw !! "success") as [a|] eqn:Ha; [|discriminate].
    destruct (kw !! "context_id") as [b|] eqn:Hb; [|discriminate].
    destruct (kw !! "version") as [c|] eqn:Hc; [|discriminate].
    destruct (kw !! "timestamp") as [d|] eqn:Hd; [|discriminate].
    injection Hr as <-. unfold as_kwargs. simpl.
    apply map_eq. intros k.
    destruct (decide (k = "success")) as [->|N1];
      [rewrite lookup_insert_eq; exact Ha|rewrite lookup_insert_ne by auto].
    destruct (decide (k = "context_id")) as [->|N2];
      [rewrite lookup_insert_eq; exact Hb|rewrite lookup_insert_ne by auto].
    destruct (decide (k = "version")) as [->|N3];
      [rewrite lookup_insert_eq; exact Hc|rewrite lookup_insert_ne by auto].
    destruct (decide (k = "timestamp")) as [->|N4];
      [rewrite lookup_singleton_eq; exact Hd|rewrite lookup_singleton_ne by auto].
    apply not_elem_of_dom. intros Hk. apply Hsub in Hk.
    unfold SaveResult.fields in Hk.
    rewrite !elem_of_union, !elem_of_singleton in Hk. tauto.
  - intros ->. destruct r as [a b c d].
    apply SaveResult_init_exact; reflexivity.
Qed.

Lemma X8_SaveResult_kwargs_witness :
  saved_body = as_kwargs (SaveResult.mk (VBool true) (VStr "c") (VInt 1) (VStr "T"))
  ∧ SaveResult.__init__ saved_body
    = Return (SaveResult.mk (VBool true) (VStr "c") (VInt 1) (VStr "T")).
Proof.
  split; [reflexivity|].
  exact (proj2 (X8_SaveResult_kwargs saved_body
                  (SaveResult.mk (VBool true) (VStr "c") (VInt 1) (VStr "T")))
               eq_refl).
Defined.

(** ** What every request carries *)

Lemma scoped_headers_auth (me : t) (i : option string) :
  scoped_headers me i !! "Authorization" = Some ("Bearer " +:+ api_key me).
Proof. apply lookup_insert_eq. Qed.

Lemma scoped_headers_dom (me : t) (i : option string) :
  dom (scoped_headers me i) = {[ "Authorization"; "X-Context-ID" ]}.
Proof.
  unfold scoped_headers. rewrite dom_insert_L, dom_singleton_L. reflexivity.
Qed.

(** X9.  Every request sent by save, get, delete or list carries the header
    [Authorization] with the value ["Bearer "] followed by the API key of
    the client.  Requests of save, get and delete carry that header and
    [X-Context-ID] and no other; requests of list carry that header
    alone. *)
Theorem X9_authorization_header (w : World) :
  (∀ c m i r, r ∈ sent_by (save c m i) w →
     headers r !! "Authorization" = Some ("Bearer " +:+ api_key (self w))
     ∧ dom (headers r) = {[ "Authorization"; "X-Context-ID" ]})
  ∧ (∀ i r, r ∈ sent_by (get i) w →
     headers r !! "Authorization" = Some ("Bearer " +:+ api_key (self w))
     ∧ dom (headers r) = {[ "Authorization"; "X-Context-ID" ]})
  ∧ (∀ i r, r ∈ sent_by (delete i) w →
     headers r !! "Authorization" = Some ("Bearer " +:+ api_key (self w))
     ∧ dom (headers r) = {[ "Authorization"; "X-Context-ID" ]})
  ∧ (∀ r, r ∈ sent_by CloudContext.list w →
     headers r !! "Authorization" = Some ("Bearer " +:+ api_key (self w))
     ∧ dom (headers r) = {[ "Authorization" ]}).
Proof.
  repeat apply conj.
  - intros c m i r. rewrite (sent_by_after _ _ _ (save_world c m i w)).
    destruct (session (self w)); [|by intros ?%elem_of_nil].
    intros ->%list_elem_of_singleton.
    split; [apply scoped_headers_auth | apply scoped_headers_dom].
  - intros i r. rewrite (sent_by_after _ _ _ (get_world i w)).
    destruct (session (self w)); [|by intros ?%elem_of_nil].
    intros ->%list_elem_of_singleton.
    split; [apply scoped_headers_auth | apply scoped_headers_dom].
  - intros i r. rewrite (sent_by_after _ _ _ (delete_world i w)).
    destruct (session (self w)); [|by intros ?%elem_of_nil].
    intros ->%list_elem_of_singleton.
    split; [apply scoped_headers_auth | apply scoped_headers_dom].
  - intros r. rewrite (sent_by_after _ _ _ (list_world w)).
    destruct (session (self w)); [|by intros ?%elem_of_nil].
    intros ->%list_elem_of_singleton.
    split; [apply lookup_singleton_eq | apply dom_singleton_L].
Qed.

Lemma X9_authorization_header_witness :
  headers (save_request (self (entered forbidden)) ∅ None None)
    !! "Authorization" = Some "Bearer k"
  ∧ dom (headers (list_request (self (entered forbidden))))
    = {[ "Authorization" ]}.
Proof.
  pose proof (X9_authorization_header (entered forbidden))
    as (Hsave & _ & _ & Hlist).
  split.
  - exact (proj1 (Hsave ∅ None None _
                    (entered_sends _ _ forbidden (save_world ∅ None None _)))).
  - exact (proj2 (Hlist _ (entered_sends _ _ forbidden (list_world _)))).
Defined.

(** X10.  With a session on the client, get makes exactly one call on it, a
    GET of the base URL followed by [/api/context]; delete exactly one, a
    DELETE of the same URL; list exactly one, a GET of the base URL followed
    by [/api/context/list].  None of the three sends a body. *)
Theorem X10_request_lines (w : World) (s : ClientSession) :
  session (self w) = Some s →
  (∀ i, ∃ r, sent_by (get i) w = [r] ∧ method r = GET
             ∧ url r = base_url (self w) +:+ "/api/context" ∧ json r = None)
  ∧ (∀ i, ∃ r, sent_by (delete i) w = [r] ∧ method r = DELETE
               ∧ url r = base_url (self w) +:+ "/api/context" ∧ json r = None)
  ∧ (∃ r, sent_by CloudContext.list w = [r] ∧ method r = GET
          ∧ url r = base_url (self w) +:+ "/api/context/list" ∧ json r = None).
Proof.
  intros Hs. repeat apply conj.
  - intros i. exists (get_request (self w) i).
    rewrite (sent_by_after _ _ _ (get_world i w)), Hs. auto.
  - intros i. exists (delete_request (self w) i).
    rewrite (sent_by_after _ _ _ (delete_world i w)), Hs. auto.
  - exists (list_request (self w)).
    rewrite (sent_by_after _ _ _ (list_world w)), Hs. auto.
Qed.

Lemma X10_request_lines_witness :
  session (self (entered forbidden)) = Some {| sid := 0 |}
  ∧ (∃ r, sent_by (delete (Some "c")) (entered forbidden) = [r]
          ∧ method r = DELETE ∧ url r = "https://x.test/api/context"
          ∧ json r = None)
  ∧ (∃ r, sent_by CloudContext.list (entered forbidden) = [r]
          ∧ method r = GET ∧ url r = "https://x.test/api/context/list"
          ∧ json r = None).
Proof.
  pose proof (X10_request_lines (entered forbidden) {| sid := 0 |} eq_refl)
    as (_ & Hdel & Hlist).
  split; [reflexivity|]. split; [exact (Hdel (Some "c")) | exact Hlist].
Defined.

(** ** The base URL *)

Lemma rstrip_slashes n : rstrip "/" (slashes n) = "".
Proof.
  induction n as [|n IH]; [reflexivity|].
  change (slashes (S n)) with (String "/" (slashes n)). simpl.
  rewrite IH. reflexivity.
Qed.

(** X11.  The base URL of a client is the URL it was built with, less all
    the slashes at its end and nothing else: it never ends in a slash, a
    URL that does not end in a slash is kept as it is, and a URL made of
    slashes only becomes the empty string. *)
Theorem X11_base_url_normalised (u k : string) (i : option string) :
  ends_with "/" (base_url (__init__ u k i)) = false
  ∧ (∃ n, u = base_url (__init__ u k i) +:+ slashes n)
  ∧ (ends_with "/" u = false → base_url (__init__ u k i) = u)
  ∧ (∀ n, base_url (__init__ (slashes n) k i) = "").
Proof.
  split; [apply rstrip_clean|].
  split; [apply rstrip_suffix|].
  split; [apply rstrip_keeps | apply rstrip_slashes].
Qed.

Lemma X11_base_url_normalised_witness :
  ends_with "/" "https://x.test/v1" = false
  ∧ base_url (__init__ "https://x.test/v1" "k" None) = "https://x.test/v1"
  ∧ ends_with "/" (base_url (__init__ "https://x.test//" "k" None)) = false.
Proof.
  split; [reflexivity|]. split.
  - exact (proj1 (proj2 (proj2 (X11_base_url_normalised
                                  "https://x.test/v1" "k" None))) eq_refl).
  - exact (proj1 (X11_base_url_normalised "https://x.test//" "k" None)).
Defined.

(** ** More on the scope of a session *)

(** X12.  The scope of the client never changes how its body ends: the
    value returned or the exception raised by the body is the outcome of
    the whole [async with] block.  If the body has cleared the session of
    the client, leaving the scope closes nothing. *)
Theorem X12_scope_passes_outcome {A} (body : M World A) (w : World) :
  fst (scoped body w) = fst (body (snd (__aenter__ w)))
  ∧ (session (self (snd (body (snd (__aenter__ w))))) = None →
     snd (scoped body w) = snd (body (snd (__aenter__ w)))).
Proof.
  unfold scoped, async_with. rewrite aenter_run. simpl.
  destruct (body _) as [out w2]. simpl.
  destruct (session (self w2)) as [s|] eqn:Hs.
  - rewrite (aexit_some _ w2 s Hs). split; [reflexivity|discriminate].
  - rewrite (aexit_none _ w2 Hs). split; reflexivity.
Qed.

Lemma X12_scope_passes_outcome_witness :
  session (self (snd (set_session None (entered forbidden)))) = None
  ∧ trace (snd (scoped (set_session None) (boot (always forbidden))))
    = [Created {| sid := 0 |}].
Proof.
  split; [reflexivity|].
  rewrite (proj2 (X12_scope_passes_outcome (set_session None)
                    (boot (always forbidden))) eq_refl).
  reflexivity.
Defined.

Lemma emitted_after {A} (op : M World A) (w : World) (r : Request) (s : ClientSession) :
  snd (op w) = after_call w r →
  session (self w) = Some s →
  emitted op w = [Called s r].
Proof.
  intros Hw Hs. unfold emitted. rewrite Hw. unfold after_call. rewrite Hs.
  rewrite trace_emit, drop_app_length. reflexivity.
Qed.

(** X13.  Leaving the scope closes the session but does not take it off
    the client: the client still holds the closed session, and a call made
    after the scope is handed to that closed session instead of failing for
    want of a session. *)
Theorem X13_session_left_after_exit {A} (body : M World A) (w : World)
    (out : Outcome A) (w2 : World) :
  body (snd (__aenter__ w)) = (out, w2) →
  session (self w2) = session (self (snd (__aenter__ w))) →
  session (self (snd (scoped body w))) = Some {| sid := fresh w |}
  ∧ closed {| sid := fresh w |} (trace (snd (scoped body w))) = true
  ∧ (∀ c m i, ∃ r, emitted (save c m i) (snd (scoped body w))
                   = [Called {| sid := fresh w |} r])
  ∧ (∀ i, ∃ r, emitted (get i) (snd (scoped body w))
               = [Called {| sid := fresh w |} r])
  ∧ (∀ i, ∃ r, emitted (delete i) (snd (scoped body w))
               = [Called {| sid := fresh w |} r])
  ∧ (∃ r, emitted CloudContext.list (snd (scoped body w))
          = [Called {| sid := fresh w |} r]).
Proof.
  intros Hbody Hkept.
  assert (scoped body w = (out, emit (Closed {| sid := fresh w |}) w2)) as Hrun.
  { unfold scoped, async_with. rewrite aenter_run in *. simpl in *.
    rewrite Hbody. rewrite (aexit_some _ w2 {| sid := fresh w |} Hkept).
    reflexivity. }
  rewrite Hrun. simpl snd.
  assert (session (self (emit (Closed {| sid := fresh w |}) w2))
          = Some {| sid := fresh w |}) as Hs by exact Hkept.
  split; [exact Hs|]. split; [apply closed_emit|].
  repeat apply conj; intros; eexists.
  - exact (emitted_after _ _ _ _ (save_world _ _ _ _) Hs).
  - exact (emitted_after _ _ _ _ (get_world _ _) Hs).
  - exact (emitted_after _ _ _ _ (delete_world _ _) Hs).
  - exact (emitted_after _ _ _ _ (list_world _) Hs).
Qed.

Lemma X13_session_left_after_exit_witness :
  session (self (snd (scoped (run_ops [List]) (boot (always forbidden)))))
    = Some {| sid := 0 |}
  ∧ closed {| sid := 0 |}
      (trace (snd (scoped (run_ops [List]) (boot (always forbidden))))) = true
  ∧ ∃ r, emitted (get None) (snd (scoped (run_ops [List]) (boot (always forbidden))))
         = [Called {| sid := 0 |} r].
Proof.
  pose proof (X13_session_left_after_exit (run_ops [List]) (boot (always forbidden))
                (Raise (Exception "Failed to list contexts: Forbidden"))
                (snd (run_ops [List] (entered forbidden))) eq_refl eq_refl)
    as (Hs & Hc & _ & Hget & _).
  split; [exact Hs|]. split; [exact Hc | exact (Hget None)].
Defined.

(** ** Calls in sequence *)

Lemma after_call_sessions (w : World) (r : Request) (s : ClientSession) :
  closed s (trace (after_call w r)) = closed s (trace w)
  ∧ created s (trace (after_call w r)) = created s (trace w)
  ∧ fresh (after_call w r) = fresh w.
Proof.
  unfold after_call. destruct (session (self w)) as [s'|]; [|auto].
  rewrite trace_emit, closed_app, created_app. simpl.
  rewrite !orb_false_r. auto.
Qed.

(** X14.  save, get, delete and list never create a session and never close
    one: the sessions created and the sessions closed are the same after a
    call as before it, whether the call returns or raises. *)
Theorem X14_methods_leave_sessions (w : World) (s : ClientSession) :
  (∀ c m i, closed s (trace (snd (save c m i w))) = closed s (trace w)
            ∧ created s (trace (snd (save c m i w))) = created s (trace w)
            ∧ fresh (snd (save c m i w)) = fresh w)
  ∧ (∀ i, closed s (trace (snd (get i w))) = closed s (trace w)
          ∧ created s (trace (snd (get i w))) = created s (trace w)
          ∧ fresh (snd (get i w)) = fresh w)
  ∧ (∀ i, closed s (trace (snd (delete i w))) = closed s (trace w)
          ∧ created s (trace (snd (delete i w))) = created s (trace w)
          ∧ fresh (snd (delete i w)) = fresh w)
  ∧ (closed s (trace (snd (CloudContext.list w))) = closed s (trace w)
     ∧ created s (trace (snd (CloudContext.list w))) = created s (trace w)
     ∧ fresh (snd (CloudContext.list w)) = fresh w).
Proof.
  split; [intros; rewrite save_world; apply after_call_sessions|].
  split; [intros; rewrite get_world; apply after_call_sessions|].
  split; [intros; rewrite delete_world; apply after_call_sessions|].
  rewrite list_world. apply after_call_sessions.
Qed.

Lemma run_op_world (o : Op) (w : World) :
  snd (run_op o w) = after_call w (op_request (self w) o).
Proof.
  destruct o; unfold run_op; rewrite bind_drop_snd; simpl;
    auto using save_world, get_world, delete_world, list_world.
Qed.

Lemma calls_map_called (s : ClientSession) (rs : Datatypes.list Request) :
  calls (map (Called s) rs) = rs.
Proof. induction rs as [|r rs IH]; simpl; [|rewrite IH]; reflexivity. Qed.

Lemma closed_map_called (s s' : ClientSession) (rs : Datatypes.list Request) :
  closed s' (map (Called s) rs) = false.
Proof. induction rs as [|r rs IH]; simpl; auto. Qed.

(** A sequence of calls adds calls on the client's session to the trace,
    one per call at most, and nothing else. *)
Lemma run_ops_trace (os : Datatypes.list Op) (w : World) (s : ClientSession) :
  session (self w) = Some s →
  ∃ rs, trace (snd (run_ops os w)) = (trace w ++ map (Called s) rs)%list
        ∧ (length rs ≤ length os)%nat.
Proof.
  revert w. induction os as [|o os IH]; intros w Hs.
  - exists []. simpl. rewrite app_nil_r. auto.
  - simpl. unfold bind.
    pose proof (run_op_world o w) as Hw. unfold after_call in Hw.
    rewrite Hs in Hw.
    destruct (run_op o w) as [[[]|e] w1]; simpl in Hw; subst w1.
    + destruct (IH (emit (Called s (op_request (self w) o)) w) Hs)
        as (rs & Htr & Hlen).
      exists (op_request (self w) o :: rs). rewrite Htr, trace_emit.
      rewrite <- app_assoc. simpl. split; [reflexivity|lia].
    + exists [op_request (self w) o]. simpl. split; [reflexivity|lia].
Qed.

Lemma run_ops_sent (os : Datatypes.list Op) (w : World) (s : ClientSession) :
  session (self w) = Some s →
  trace (snd (run_ops os w))
    = (trace w ++ map (Called s) (sent_by (run_ops os) w))%list
  ∧ (length (sent_by (run_ops os) w) ≤ length os)%nat.
Proof.
  intros Hs. destruct (run_ops_trace os w s Hs) as (rs & Htr & Hlen).
  unfold sent_by. rewrite Htr, drop_app_length, calls_map_called. auto.
Qed.

Lemma scoped_run {A} (body : M World A) (w : World) (out : Outcome A)
    (w2 : World) (s : ClientSession) :
  body (snd (__aenter__ w)) = (out, w2) →
  session (self w2) = Some s →
  scoped body w = (out, emit (Closed s) w2).
Proof.
  intros Hbody Hs. unfold scoped, async_with.
  rewrite aenter_run in *. simpl in *.
  rewrite Hbody, (aexit_some _ w2 s Hs). reflexivity.
Qed.

Lemma scoped_ops_run (os : Datatypes.list Op) (w : World) :
  scoped (run_ops os) w =
    (fst (run_ops os (snd (__aenter__ w))),
     emit (Closed {| sid := fresh w |}) (snd (run_ops os (snd (__aenter__ w))))).
Proof.
  apply scoped_run; [apply surjective_pairing|].
  rewrite run_ops_self. reflexivity.
Qed.

(** X15.  Around a sequence of calls on the client, the scope adds to the
    trace the creation of one session, then the calls, all of them on that
    session and at most one per call, then the closing of that session,
    and nothing else; this is so whether the calls succeed or one of them
    raises. *)
Theorem X15_scope_trace (os : Datatypes.list Op) (w : World) :
  emitted (scoped (run_ops os)) w =
    Created {| sid := fresh w |}
      :: (map (Called {| sid := fresh w |})
              (sent_by (run_ops os) (snd (__aenter__ w)))
          ++ [Closed {| sid := fresh w |}])%list
  ∧ (length (sent_by (run_ops os) (snd (__aenter__ w))) ≤ length os)%nat.
Proof.
  set (w1 := snd (__aenter__ w)).
  destruct (run_ops_sent os w1 {| sid := fresh w |} eq_refl) as (Htr & Hlen).
  split; [|exact Hlen].
  unfold emitted. rewrite scoped_ops_run. fold w1. cbn [snd].
  rewrite trace_emit, Htr.
  change (trace w1) with (trace w ++ [Created {| sid := fresh w |}])%list.
  rewrite <- !app_assoc, drop_app_length. reflexivity.
Qed.

(** X16.  Entering the scope of a client that is already inside its scope
    replaces the session without closing it.  With two nested scopes around
    a sequence of calls, the calls go to the second session, the second
    session is closed twice and the first is never closed. *)
Theorem X16_nested_scope_leaks (os : Datatypes.list Op) (w : World) :
  emitted (scoped (scoped (run_ops os))) w =
    Created {| sid := fresh w |}
      :: Created {| sid := S (fresh w) |}
      :: (map (Called {| sid := S (fresh w) |})
              (sent_by (run_ops os) (snd (__aenter__ (snd (__aenter__ w)))))
          ++ [Closed {| sid := S (fresh w) |}; Closed {| sid := S (fresh w) |}])%list
  ∧ closed {| sid := fresh w |} (emitted (scoped (scoped (run_ops os))) w) = false.
Proof.
  set (w1 := snd (__aenter__ w)).
  set (w2 := snd (__aenter__ w1)).
  set (s1 := {| sid := S (fresh w) |}).
  destruct (run_ops_sent os w2 s1 eq_refl) as (Htr & _).
  assert (session (self (snd (run_ops os w2))) = Some s1) as Hs
    by (rewrite run_ops_self; reflexivity).
  assert (scoped (scoped (run_ops os)) w =
            (fst (run_ops os w2),
             emit (Closed s1) (emit (Closed s1) (snd (run_ops os w2))))) as Hrun.
  { apply scoped_run; [|exact Hs].
    fold w1. change (scoped (run_ops os) w1 = (fst (run_ops os w2),
                       emit (Closed s1) (snd (run_ops os w2)))).
    apply scoped_run; [apply surjective_pairing | exact Hs]. }
  assert (emitted (scoped (scoped (run_ops os))) w =
            Created {| sid := fresh w |} :: Created s1
              :: (map (Called s1) (sent_by (run_ops os) w2)
                  ++ [Closed s1; Closed s1])%list) as Hem.
  { unfold emitted. rewrite Hrun. cbn [snd].
    rewrite !trace_emit, Htr.
    change (trace w2)
      with ((trace w ++ [Created {| sid := fresh w |}]) ++ [Created s1])%list.
    rewrite <- !app_assoc, drop_app_length. reflexivity. }
  split; [exact Hem|]. rewrite Hem. simpl.
  rewrite closed_app, closed_map_called. simpl.
  replace (fresh w =? S (fresh w))%nat with false
    by (symmetry; apply Nat.eqb_neq; lia).
  reflexivity.
Qed.

Lemma run_ops_requests (os : Datatypes.list Op) (w : World) (s : ClientSession) :
  session (self w) = Some s →
  ∃ k, (k ≤ length os)%nat
       ∧ trace (snd (run_ops os w))
         = (trace w ++ map (Called s) (map (op_request (self w)) (take k os)))%list
       ∧ (fst (run_ops os w) = Return tt → k = length os).
Proof.
  revert w. induction os as [|o os IH]; intros w Hs.
  - exists 0%nat. simpl. rewrite app_nil_r. auto.
  - simpl. unfold bind.
    pose proof (run_op_world o w) as Hw. unfold after_call in Hw.
    rewrite Hs in Hw.
    destruct (run_op o w) as [[[]|e] w1]; simpl in Hw; subst w1.
    + destruct (IH (emit (Called s (op_request (self w) o)) w) Hs)
        as (k & Hk & Htr & Hall).
      exists (S k). rewrite Htr, trace_emit, <- app_assoc. simpl.
      split; [lia|]. split; [reflexivity|]. intros Hret. f_equal. auto.
    + exists 1%nat. simpl.
      split; [lia|]. split; [by destruct os|discriminate].
Qed.

Lemma calls_app (t1 t2 : Datatypes.list Event) :
  calls (t1 ++ t2) = (calls t1 ++ calls t2)%list.
Proof.
  induction t1 as [|e t1 IH]; [reflexivity|].
  destruct e; simpl; rewrite IH; reflexivity.
Qed.

Lemma run_ops_returned (os1 os2 : Datatypes.list Op) (w : World) :
  fst (run_ops os1 w) = Return tt →
  run_ops (os1 ++ os2) w = run_ops os2 (snd (run_ops os1 w)).
Proof.
  revert w. induction os1 as [|o os1 IH]; intros w Hret; [reflexivity|].
  simpl in *. unfold bind in *.
  destruct (run_op o w) as [[[]|e] w1]; simpl in *; [|discriminate].
  apply IH. exact Hret.
Qed.

Lemma run_ops_all_sent (os : Datatypes.list Op) (w : World) (s : ClientSession) :
  session (self w) = Some s →
  fst (run_ops os w) = Return tt →
  trace (snd (run_ops os w))
    = (trace w ++ map (Called s) (map (op_request (self w)) os))%list.
Proof.
  intros Hs Hret.
  destruct (run_ops_requests os w s Hs) as (k & Hk & Htr & Hall).
  rewrite Htr, (Hall Hret), firstn_all. reflexivity.
Qed.

(** X17.  In a sequence of calls on a client with a session, the requests
    sent are those of the calls, one each and in the order of the calls,
    every one built from the client as it was before the first call.  When
    no call raises, every call has sent its request.  When a call raises,
    the sequence ends with its exception: the requests sent are those of
    the calls up to and including that one, and no later call sends
    anything. *)
Theorem X17_requests_in_order (w : World) (s : ClientSession) :
  session (self w) = Some s →
  (∀ os, fst (run_ops os w) = Return tt →
     sent_by (run_ops os) w = map (op_request (self w)) os)
  ∧ (∀ os1 o os2 e,
     fst (run_ops os1 w) = Return tt →
     fst (run_op o (snd (run_ops os1 w))) = Raise e →
     fst (run_ops (os1 ++ o :: os2) w) = Raise e
     ∧ sent_by (run_ops (os1 ++ o :: os2)) w
       = map (op_request (self w)) (os1 ++ [o])).
Proof.
  intros Hs. split.
  - intros os Hret. unfold sent_by.
    rewrite (run_ops_all_sent os w s Hs Hret), drop_app_length.
    apply calls_map_called.
  - intros os1 o os2 e Hret Hraise.
    pose proof (run_ops_all_sent os1 w s Hs Hret) as Htr.
    pose proof (run_ops_self os1 w) as Hself.
    pose proof (run_op_world o (snd (run_ops os1 w))) as Hw.
    unfold after_call in Hw. rewrite Hself, Hs in Hw.
    assert (run_ops (os1 ++ o :: os2) w
            = (Raise e, emit (Called s (op_request (self w) o))
                          (snd (run_ops os1 w)))) as Hrun.
    { rewrite (run_ops_returned os1 (o :: os2) w Hret). simpl. unfold bind.
      destruct (run_op o (snd (run_ops os1 w))) as [[[]|e'] w1];
        simpl in *; [discriminate|].
      injection Hraise as ->. subst w1. reflexivity. }
    split; [rewrite Hrun; reflexivity|].
    unfold sent_by. rewrite Hrun. cbn [snd].
    rewrite trace_emit, Htr, <- app_assoc, drop_app_length.
    rewrite calls_app, calls_map_called, map_app. reflexivity.
Qed.

Lemma X17_requests_in_order_witness :
  session (self (entered (ok VNone))) = Some {| sid := 0 |}
  ∧ fst (run_ops [Delete None; Delete (Some "b")] (entered (ok VNone))) = Return tt
  ∧ sent_by (run_ops [Delete None; Delete (Some "b")]) (entered (ok VNone))
    = [delete_request (self (entered (ok VNone))) None;
       delete_request (self (entered (ok VNone))) (Some "b")]
  ∧ fst (run_op List (snd (run_ops [Delete None] (entered (ok VNone)))))
    = Raise TypeError
  ∧ fst (run_ops [Delete None; List; Get None] (entered (ok VNone)))
    = Raise TypeError
  ∧ sent_by (run_ops [Delete None; List; Get None]) (entered (ok VNone))
    = [delete_request (self (entered (ok VNone))) None;
       list_request (self (entered (ok VNone)))].
Proof.
  pose proof (X17_requests_in_order (entered (ok VNone)) {| sid := 0 |} eq_refl)
    as (Hall & Hstop).
  split; [reflexivity|]. split; [reflexivity|].
  split; [exact (Hall [Delete None; Delete (Some "b")] eq_refl)|].
  split; [reflexivity|].
  exact (Hstop [Delete None] List [Get None] TypeError eq_refl eq_refl).
Defined.

(** X18.  A context identifier given to one call is used for that call
    only: whatever calls came before and whatever identifiers they were
    given, a later save, get or delete sends the identifier of its own
    argument or, without one, the identifier the client was built with. *)
Theorem X18_override_does_not_persist (os : Datatypes.list Op) (w : World)
    (j : option string) :
  (∀ c m r, r ∈ sent_by (save c m j) (snd (run_ops os w)) →
     headers r !! "X-Context-ID" = Some (effective_id (self w) j))
  ∧ (∀ r, r ∈ sent_by (get j) (snd (run_ops os w)) →
     headers r !! "X-Context-ID" = Some (effective_id (self w) j))
  ∧ (∀ r, r ∈ sent_by (delete j) (snd (run_ops os w)) →
     headers r !! "X-Context-ID" = Some (effective_id (self w) j)).
Proof.
  pose proof (run_ops_self os w) as Hself.
  repeat apply conj.
  - intros c m r. rewrite (sent_by_after _ _ _ (save_world c m j _)).
    destruct (session _); [|by intros ?%elem_of_nil].
    intros ->%list_elem_of_singleton. rewrite Hself. apply scoped_headers_id.
  - intros r. rewrite (sent_by_after _ _ _ (get_world j _)).
    destruct (session _); [|by intros ?%elem_of_nil].
    intros ->%list_elem_of_singleton. rewrite Hself. apply scoped_headers_id.
  - intros r. rewrite (sent_by_after _ _ _ (delete_world j _)).
    destruct (session _); [|by intros ?%elem_of_nil].
    intros ->%list_elem_of_singleton. rewrite Hself. apply scoped_headers_id.
Qed.

Lemma X18_override_does_not_persist_witness :
  get_request (self (entered (ok (VDict saved_body)))) None
    ∈ sent_by (get None)
        (snd (run_ops [Save ∅ None (Some "other")] (entered (ok (VDict saved_body)))))
  ∧ headers (get_request (self (entered (ok (VDict saved_body)))) None)
      !! "X-Context-ID" = Some "default".
Proof.
  assert (get_request (self (entered (ok (VDict saved_body)))) None
            ∈ sent_by (get None)
                (snd (run_ops [Save ∅ None (Some "other")]
                        (entered (ok (VDict saved_body)))))) as Hin.
  { rewrite (sent_by_after _ _ _ (get_world None _)). apply list_elem_of_here. }
  split; [exact Hin|].
  exact (proj1 (proj2 (X18_override_does_not_persist
                         [Save ∅ None (Some "other")]
                         (entered (ok (VDict saved_body))) None)) _ Hin).
Defined.

(** ** Arguments that count as absent *)

(** X19.  An empty metadata mapping and an empty context identifier are
    treated as if the argument had been left out: the call runs exactly as
    the call without the argument, request, outcome and all. *)
Theorem X19_falsy_is_omitted (w : World) :
  (∀ c i, save c (Some ∅) i w = save c None i w)
  ∧ (∀ c m, save c m (Some "") w = save c m None w)
  ∧ get (Some "") w = get None w
  ∧ delete (Some "") w = delete None w.
Proof.
  split; [|repeat split; reflexivity].
  intros c i. unfold save. rewrite !bind_gets. cbv zeta.
  rewrite !or_else_mapping. reflexivity.
Qed.
